(** * Reminder lifecycle of the dental voice agent

    A shallow embedding of the reminder service
    ([src/appointments/appointment_service.py]), of the reminder table
    ([src/database/models.py]), of the voice scripts
    ([src/voice/twilio_service.py]) and of the status webhook
    ([src/api/routes.py]), followed by the properties of the reminder
    lifecycle that hold of them. *)

From Stdlib Require Import ZArith QArith List Bool Lia Ascii DecimalString.
From stdpp Require Import base option list strings gmap sorting.

Local Open Scope string_scope.
Local Open Scope list_scope.
Local Open Scope Z_scope.

(** ** Python values the service handles *)

(** A naive [datetime], counted in microseconds from 1970-01-01T00:00:00.
    Python represents the instants from [datetime.min] to [datetime.max]. *)
Definition datetime := Z.

Definition datetime_min : datetime := -62135596800000000.
Definition datetime_max : datetime := 253402300799999999.

(** [timedelta(hours=h)], in microseconds. *)
Definition timedelta_hours (h : Z) : Z := h * 3600 * 1000000.

(** The exceptions that travel through the service, each with the message
    [str(e)] prints. [ObjectDeletedError] is the session's, for an object
    whose row is gone; [CollaboratorError] stands for whatever a client of
    an outside service raises. *)
Inductive exn :=
  | ValueError (msg : string)
  | OverflowError (msg : string)
  | HTTPException (status_code : Z) (detail : string)
  | ObjectDeletedError
  | CollaboratorError (msg : string).

Inductive result (A : Type) :=
  | Ok (a : A)
  | Raise (e : exn).
Arguments Ok {A} a.
Arguments Raise {A} e.

(** [d - timedelta(hours=h)]: raises [OverflowError] outside the
    representable range. *)
Definition datetime_sub_hours (d : datetime) (h : Z) : result datetime :=
  let r := d - timedelta_hours h in
  if (r <? datetime_min) || (datetime_max <? r)
  then Raise (OverflowError "date value out of range")
  else Ok r.

(** [str(n)] for an [int]. *)
Definition str_int (n : Z) : string := NilZero.string_of_int (Z.to_int n).

(** The functions of the [datetime] module the service calls. *)
Class PyRuntime := {
  fromisoformat : string -> result datetime;
  strftime : datetime -> string -> string
}.

(** ** The reminder table ([models.py]) *)

Module models.

Inductive reminder_status :=
  | scheduled | sent | confirmed | rescheduled | failed.

#[global] Instance reminder_status_eq_dec : EqDecision reminder_status.
Proof. solve_decision. Defined.

Record AppointmentReminder := {
  id : Z;
  patient_name : string;
  phone_number : string;
  appointment_date : datetime;
  message : option string;
  status : reminder_status;
  call_sid : option string;
  created_at : datetime;
  updated_at : datetime
}.

End models.
Import models.

(** ** Logging *)

Inductive level := INFO | WARNING | ERROR.

(** A value interpolated into an f-string. *)
Inductive fvalue :=
  | FStr (s : string)
  | FOptStr (s : option string)
  | FInt (n : Z)
  | FTime (t : datetime)
  | FStatus (s : reminder_status)
  | FExn (e : exn).

(** One log line: level, the f-string as written in the source, and the
    values of its fields in order. *)
Record log_record := Log {
  levelname : level;
  template : string;
  args : list fvalue
}.

(** ** The effects of a service call *)

Abbreviation Session := (list AppointmentReminder) (only parsing).

(** Modelled from the spec: the engine and session factory of
    [src/database/database.py], which is not among the sources. The spec
    has the store consumed through load by id, load by
    external-call-reference and save of a reminder record, so the session
    is the reminder table itself, rows in primary-key order, and writes do
    not fail. Beside the table a call can read and change the log and read
    the clock behind [datetime.utcnow]. *)
Record world := {
  db : Session;
  records : list log_record;
  utc : datetime
}.

Definition M (A : Type) : Type := world -> result A * world.

Definition ret {A} (a : A) : M A := fun w => (Ok a, w).

Definition raise {A} (e : exn) : M A := fun w => (Raise e, w).

Definition bind {A B} (c : M A) (k : A -> M B) : M B :=
  fun w =>
    match c w with
    | (Ok a, w') => k a w'
    | (Raise e, w') => (Raise e, w')
    end.

Declare Scope py_scope.
Delimit Scope py_scope with py.
Notation "'let*' x ':=' c 'in' k" := (bind c (fun x => k))
  (at level 10, x name, c at level 200, k at level 200) : py_scope.
Notation "c ;; k" := (bind c (fun _ => k))
  (at level 100, k at level 200, right associativity) : py_scope.
Local Open Scope py_scope.

(** [try: body except Exception as e: handler e]. What [body] changed
    before it raised stays changed. *)
Definition try_except {A} (body : M A) (handler : exn -> M A) : M A :=
  fun w =>
    match body w with
    | (Ok a, w') => (Ok a, w')
    | (Raise e, w') => handler e w'
    end.

(** A pure computation that may raise. *)
Definition lift {A} (r : result A) : M A := fun w => (r, w).

Definition utcnow : M datetime := fun w => (Ok (utc w), w).

Definition logger (l : level) (t : string) (a : list fvalue) : M unit :=
  fun w => (Ok tt, {| db := db w; records := records w ++ [Log l t a]; utc := utc w |}).

Definition logger_info := logger INFO.
Definition logger_warning := logger WARNING.
Definition logger_error := logger ERROR.

(** ** The session *)

(** A loaded object is a row of the table: it is named by the row's
    position, so that every holder of the object sees its changes. *)
Abbreviation handle := nat (only parsing).

(** The position of the first row that satisfies [p]. *)
Fixpoint first_index (p : AppointmentReminder -> bool) (l : Session) : option handle :=
  match l with
  | [] => None
  | r :: l' => if p r then Some 0%nat else S <$> first_index p l'
  end.

(** [db.query(AppointmentReminder).filter(p).first()] *)
Definition query_filter_first (p : AppointmentReminder -> bool) : M (option handle) :=
  fun w => (Ok (first_index p (db w)), w).

(** The filters the service queries with. [call_sid == v] with [v = None]
    is rendered [call_sid IS NULL], so both cases compare the column as an
    optional value. *)
Definition id_is (v : Z) (r : AppointmentReminder) : bool :=
  bool_decide (id r = v).
Definition call_sid_is (v : option string) (r : AppointmentReminder) : bool :=
  bool_decide (call_sid r = v).

(** Reading an attribute of a loaded object. *)
Definition getattr {A} (h : handle) (f : AppointmentReminder -> A) : M A :=
  fun w =>
    match db w !! h with
    | Some r => (Ok (f r), w)
    | None => (Raise ObjectDeletedError, w)
    end.

Definition with_status (s : reminder_status) (now : datetime) (r : AppointmentReminder) : AppointmentReminder :=
  {| id := id r; patient_name := patient_name r; phone_number := phone_number r;
     appointment_date := appointment_date r; message := message r;
     status := s; call_sid := call_sid r;
     created_at := created_at r;
     updated_at := if decide (status r = s) then updated_at r else now |}.

Definition with_call_sid (c : option string) (now : datetime) (r : AppointmentReminder) : AppointmentReminder :=
  {| id := id r; patient_name := patient_name r; phone_number := phone_number r;
     appointment_date := appointment_date r; message := message r;
     status := status r; call_sid := c;
     created_at := created_at r;
     updated_at := if decide (call_sid r = c) then updated_at r else now |}.

(** Assigning an attribute of a loaded object. The row is written at once;
    [updated_at] follows its [onupdate] default, which the flush applies
    when the assigned value differs from the stored one. *)
Definition setattr (h : handle) (f : datetime -> AppointmentReminder -> AppointmentReminder) : M unit :=
  fun w =>
    match db w !! h with
    | Some r => (Ok tt, {| db := <[h := f (utc w) r]> (db w); records := records w; utc := utc w |})
    | None => (Raise ObjectDeletedError, w)
    end.

(** The key of the next inserted row: one more than the greatest key. *)
Definition next_id (l : Session) : Z := 1 + foldr Z.max 0 (id <$> l).

(** [db.add(reminder)]: the row is appended, with its key and its
    [created_at] and [updated_at] defaults. *)
Definition db_add (r : AppointmentReminder) : M handle :=
  fun w =>
    let row :=
      {| id := next_id (db w); patient_name := patient_name r; phone_number := phone_number r;
         appointment_date := appointment_date r; message := message r;
         status := status r; call_sid := call_sid r;
         created_at := utc w; updated_at := utc w |} in
    (Ok (List.length (db w)), {| db := db w ++ [row]; records := records w; utc := utc w |}).

(** [db.commit()], [db.refresh(obj)], [db.rollback()]: the writes above
    are already in the table, and nothing is pending when the service rolls
    back. *)
Definition db_commit : M unit := ret tt.
Definition db_refresh (h : handle) : M unit := ret tt.
Definition db_rollback : M unit := ret tt.

(** The object [AppointmentReminder(...)] builds: key and timestamps are
    filled in by the insert. *)
Definition new_AppointmentReminder (patient_name phone_number : string)
    (appointment_date : datetime) (message : option string)
    (status : reminder_status) : AppointmentReminder :=
  {| id := 0; patient_name := patient_name; phone_number := phone_number;
     appointment_date := appointment_date; message := message;
     status := status; call_sid := None; created_at := 0; updated_at := 0 |}.

(** ** Voice scripts and the gateway ([twilio_service.py]) *)

Module twilio_service.

(** The verbs of a voice script. A [Gather] carries the prompts said while
    it waits for keys. *)
Inductive verb :=
  | Say (text : string)
  | Gather (num_digits : Z) (action method : string) (nested : list string)
  | Dial (number : string)
  | Hangup.

Definition VoiceResponse := list verb.

Definition say (text : string) (response : VoiceResponse) : VoiceResponse :=
  response ++ [Say text].
Definition append (v : verb) (response : VoiceResponse) : VoiceResponse :=
  response ++ [v].
Definition dial (number : string) (response : VoiceResponse) : VoiceResponse :=
  response ++ [Dial number].
Definition hangup (response : VoiceResponse) : VoiceResponse :=
  response ++ [Hangup].

(** The provider's client: [client.calls.create(to, from_, url,
    status_callback, status_callback_event)] answers with the call's sid or
    raises. *)
Record Client := {
  calls_create : string -> string -> string -> option string -> list string -> result string
}.

Record TwilioVoiceService := {
  account_sid : string;
  auth_token : string;
  phone_number : string;
  client : option Client
}.

Definition make_call (self : TwilioVoiceService) (to_number callback_url : string)
    (status_callback_url : option string) : M string :=
  match client self with
  | None => raise (ValueError "Twilio client not initialized. Check your credentials.")
  | Some c =>
      try_except
        (let* sid := lift (calls_create c to_number (phone_number self) callback_url
                             status_callback_url
                             ["initiated"; "ringing"; "answered"; "completed"]) in
         logger_info "Initiated call to {to_number}: {call.sid}" [FStr to_number; FStr sid];;
         ret sid)
        (fun e =>
           logger_error "Error making call: {str(e)}" [FExn e];;
           raise e)
  end.

Definition confirm_prompt : string :=
  "Press 1 to confirm your appointment, or press 2 to speak with our staff.".

Definition generate_appointment_reminder_twiml (self : TwilioVoiceService)
    (reminder_text : string) : VoiceResponse :=
  let response := [] in
  (* Say the reminder message *)
  let response := say reminder_text response in
  (* Gather for confirmation *)
  let gather := Gather 1 "/appointment-confirm" "POST" [confirm_prompt] in
  let response := append gather response in
  (* If no input, repeat the options *)
  let response := say "I didn't receive your input. Let me repeat." response in
  let gather := Gather 1 "/appointment-confirm" "POST" [confirm_prompt] in
  let response := append gather response in
  (* If still no input, end the call *)
  let response := say "Thank you for your time. If you need to make any changes to your appointment, please call our office during business hours. Goodbye!" response in
  hangup response.

Definition handle_appointment_confirmation (self : TwilioVoiceService)
    (request_data : gmap string string) : VoiceResponse :=
  let response := [] in
  (* Get the digit pressed *)
  let digit := default "" (request_data !! "Digits") in
  if decide (digit = "1") then
    let response := say "Thank you for confirming your appointment. We look forward to seeing you. Goodbye!" response in
    hangup response
  else if decide (digit = "2") then
    let response := say "I'll connect you with our office staff. Please hold." response in
    let response := dial "+11234567890" response in
    let response := say "The call could not be completed. Please try calling our main office number directly. Goodbye!" response in
    hangup response
  else
    let response := say "I'm sorry, I didn't understand your selection." response in
    let gather := Gather 1 "/appointment-confirm" "POST" [confirm_prompt] in
    let response := append gather response in
    let response := say "Thank you for your time. Goodbye!" response in
    hangup response.

End twilio_service.

(** ** The reminder script collaborator ([voice_agent.py]) *)

Module voice_agent.

(** [get_appointment_reminder(patient_name, appointment_date,
    custom_message)] asks the completion service for the reminder text; it
    answers with a text or raises. *)
Record VoiceAgent := {
  get_appointment_reminder : string -> string -> option string -> result string
}.

End voice_agent.

(** ** The reminder service ([appointment_service.py]) *)

Module appointment_service.

Import twilio_service voice_agent.

Record AppointmentService := {
  voice_agent : VoiceAgent;
  twilio_service : TwilioVoiceService;
  base_url : string
}.

Section service.
Context `{PyRuntime}.

Definition create_appointment_reminder (self : AppointmentService)
    (phone_number appointment_date patient_name : string)
    (message : option string) : M Z :=
  try_except
    ((* Parse appointment date *)
     let* appointment_datetime := lift (fromisoformat appointment_date) in
     (* Create reminder object *)
     let reminder :=
       new_AppointmentReminder patient_name phone_number appointment_datetime
         message scheduled in
     (* Add to database *)
     let* reminder := db_add reminder in
     db_commit;;
     db_refresh reminder;;
     logger_info "Created appointment reminder for {patient_name} on {appointment_date}"
       [FStr patient_name; FStr appointment_date];;
     getattr reminder id)
    (fun e =>
       db_rollback;;
       logger_error "Error creating appointment reminder: {str(e)}" [FExn e];;
       raise e).

Definition _make_reminder_call (self : AppointmentService) (reminder : handle) : M unit :=
  try_except
    ((* Get reminder text from voice agent *)
     let* name := getattr reminder patient_name in
     let* date := getattr reminder appointment_date in
     let* custom := getattr reminder message in
     let* reminder_text :=
       lift (get_appointment_reminder (voice_agent self) name
               (strftime date "%A, %B %d at %I:%M %p") custom) in
     (* Generate TwiML for the call *)
     let twiml := generate_appointment_reminder_twiml (twilio_service self) reminder_text in
     let* rid := getattr reminder id in
     (* Callback URL for when the call is answered *)
     let callback_url :=
       String.append (base_url self)
         (String.append "/appointment-reminder-twiml/" (str_int rid)) in
     (* Status callback URL *)
     let status_callback_url :=
       String.append (base_url self)
         (String.append "/call-status-callback/" (str_int rid)) in
     (* Make the call *)
     let* to_number := getattr reminder models.phone_number in
     let* call_sid :=
       make_call (twilio_service self) to_number callback_url (Some status_callback_url) in
     (* Update reminder with call SID and status *)
     setattr reminder (with_call_sid (Some call_sid));;
     setattr reminder (with_status sent);;
     db_commit;;
     let* to_number := getattr reminder models.phone_number in
     let* rid := getattr reminder id in
     logger_info "Made reminder call to {reminder.phone_number} for reminder {reminder.id}"
       [FStr to_number; FInt rid])
    (fun e =>
       (* Update reminder status to failed *)
       setattr reminder (with_status failed);;
       db_commit;;
       logger_error "Error making reminder call: {str(e)}" [FExn e]).

Definition schedule_reminder_call (self : AppointmentService) (reminder_id : Z) : M unit :=
  try_except
    ((* Get reminder from database *)
     let* reminder := query_filter_first (id_is reminder_id) in
     match reminder with
     | None => logger_error "Reminder with ID {reminder_id} not found" [FInt reminder_id]
     | Some reminder =>
         (* Get appointment date *)
         let* appointment_date := getattr reminder appointment_date in
         (* Schedule call for 24 hours before the appointment *)
         let* call_time := lift (datetime_sub_hours appointment_date 24) in
         (* If the appointment is less than 24 hours away, schedule for now *)
         let* now := utcnow in
         if call_time <? now then _make_reminder_call self reminder
         else
           logger_info "Would schedule call for {call_time} for reminder {reminder_id}"
             [FTime call_time; FInt reminder_id]
     end)
    (fun e => logger_error "Error scheduling reminder call: {str(e)}" [FExn e]).

Definition handle_call_status_callback (self : AppointmentService)
    (call_sid : option string) (status : string) : M unit :=
  try_except
    ((* Find reminder by call SID *)
     let* reminder := query_filter_first (call_sid_is call_sid) in
     match reminder with
     | None => logger_warning "No reminder found for call SID {call_sid}" [FOptStr call_sid]
     | Some reminder =>
         (* Update status based on call status *)
         (if decide (status = "completed") then
            setattr reminder (with_status sent)
          else if decide (status = "failed" \/ status = "busy" \/ status = "no-answer") then
            setattr reminder (with_status failed)
          else ret tt);;
         db_commit;;
         let* rid := getattr reminder id in
         let* st := getattr reminder models.status in
         logger_info "Updated status for reminder {reminder.id} to {reminder.status}"
           [FInt rid; FStatus st]
     end)
    (fun e => logger_error "Error handling call status callback: {str(e)}" [FExn e]).

Definition handle_appointment_confirmation (self : AppointmentService)
    (reminder_id : Z) (confirmed : bool) : M unit :=
  try_except
    ((* Find reminder *)
     let* reminder := query_filter_first (id_is reminder_id) in
     match reminder with
     | None => logger_warning "No reminder found with ID {reminder_id}" [FInt reminder_id]
     | Some reminder =>
         (* Update status based on confirmation *)
         (if confirmed then setattr reminder (with_status models.confirmed)
          else setattr reminder (with_status rescheduled));;
         db_commit;;
         let* rid := getattr reminder id in
         let* st := getattr reminder models.status in
         logger_info "Updated status for reminder {reminder.id} to {reminder.status}"
           [FInt rid; FStatus st]
     end)
    (fun e => logger_error "Error handling appointment confirmation: {str(e)}" [FExn e]).

End service.

End appointment_service.

(** ** The status webhook ([routes.py]) *)

Module routes.

Import appointment_service.

(** [POST /call-status-callback/{reminder_id}] *)
Definition call_status_callback (reminder_id : Z)
    (appointment_service : AppointmentService) : M (list (string * string)) :=
  try_except
    (let* reminder := query_filter_first (id_is reminder_id) in
     match reminder with
     | None =>
         raise (HTTPException 404
                  (String.append "Reminder with ID "
                     (String.append (str_int reminder_id) " not found")))
     | Some reminder =>
         (* Update reminder status based on call status *)
         let* call_sid := getattr reminder call_sid in
         handle_call_status_callback appointment_service call_sid "completed";;
         ret [("message", "Status updated successfully")]
     end)
    (fun e =>
       match e with
       | HTTPException _ _ => raise e
       | _ =>
           logger_error "Error handling call status callback: {str(e)}" [FExn e];;
           raise (HTTPException 500 "Error handling call status callback")
       end).

End routes.

(** ** How the gateway plays a voice script *)

Module gateway.

Import twilio_service.

(** What the callee does while a [Gather] waits: keys, or nothing until the
    gather times out. *)
Inductive answer :=
  | Press (digits : string)
  | Silence.

(** What happens on the line. [Posted] is the gateway's request to the
    action URL of a gather, with the keys as [Digits]; the call goes on
    with whatever the server answers there. *)
Inductive heard :=
  | Spoke (text : string)
  | Prompted (texts : list string)
  | Bridged (number : string)
  | HungUp
  | Posted (method action digits : string).

(** The gateway runs the verbs of one script in order. At a [Gather] it
    says the nested prompts and waits: keys are posted to the action URL
    and the rest of the script is dropped, a timeout falls through to the
    next verb (the source's "If no input, repeat the options" and "If still
    no input, end the call"). [Hangup], or the end of the script, ends the
    call. When the answers run out the call is left waiting at that
    gather. *)
Fixpoint play (script : VoiceResponse) (answers : list answer) : list heard :=
  match script with
  | [] => []
  | Say text :: rest => Spoke text :: play rest answers
  | Dial number :: rest => Bridged number :: play rest answers
  | Hangup :: _ => [HungUp]
  | Gather _ action method nested :: rest =>
      Prompted nested ::
      match answers with
      | [] => []
      | Silence :: answers' => play rest answers'
      | Press digits :: _ => [Posted method action digits]
      end
  end.




(** A key the confirmation menu does not know. *)
Definition unrecognized (digits : string) : Prop :=
  digits <> "1" /\ digits <> "2".


End gateway.

(** ** Sequences of service calls *)

Module lifecycle.

Import appointment_service.

Inductive operation :=
  | CreateReminder (phone_number appointment_date patient_name : string)
      (message : option string)
  | ScheduleReminderCall (reminder_id : Z)
  | MakeReminderCall (reminder : handle)
  | CallStatus (call_sid : option string) (status : string)
  | Confirmation (reminder_id : Z) (confirmed : bool)
  | StatusWebhook (reminder_id : Z).

Definition void {A} (c : M A) : M unit := bind c (fun _ => ret tt).

Section operations.
Context `{PyRuntime}.

Definition perform (self : AppointmentService) (op : operation) : M unit :=
  match op with
  | CreateReminder phone date name message =>
      void (create_appointment_reminder self phone date name message)
  | ScheduleReminderCall reminder_id => schedule_reminder_call self reminder_id
  | MakeReminderCall reminder => _make_reminder_call self reminder
  | CallStatus call_sid status => handle_call_status_callback self call_sid status
  | Confirmation reminder_id yes =>
      handle_appointment_confirmation self reminder_id yes
  | StatusWebhook reminder_id => void (routes.call_status_callback reminder_id self)
  end.

(** The world when the clock reads [now]. *)
Definition at_time (now : datetime) (w : world) : world :=
  {| db := db w; records := records w; utc := now |}.

(** One call at a clock reading; what it returns or raises goes to its
    caller, the world is what stays. *)
Definition step (self : AppointmentService) (w : world)
    (e : datetime * operation) : world :=
  snd (perform self (snd e) (at_time (fst e) w)).

Definition run (self : AppointmentService) (es : list (datetime * operation))
    (w : world) : world :=
  fold_left (step self) es w.

End operations.

Definition empty_world : world := {| db := []; records := []; utc := 0 |}.

(** The statuses from which the lifecycle graph has no edge. *)
Definition terminal (s : reminder_status) : bool :=
  match s with
  | confirmed | rescheduled | failed => true
  | scheduled | sent => false
  end.


(** The edges of the lifecycle graph. *)
Definition edge (a b : reminder_status) : bool :=
  match a, b with
  | scheduled, sent | scheduled, failed => true
  | sent, confirmed | sent, rescheduled | sent, failed => true
  | _, _ => false
  end.

(** A move the graph allows: staying, or following an edge. *)
Definition allowed (a b : reminder_status) : Prop :=
  a = b \/ edge a b = true.

(** The scheduling decision, in the words of the policy: place the call
    when [now] is at or past 24 hours before the appointment, otherwise
    defer until then. *)
Inductive decision :=
  | placeNow
  | deferUntil (instant : datetime).

Definition policy_decision (appointment now : datetime) : decision :=
  if appointment - timedelta_hours 24 <=? now then placeNow
  else deferUntil (appointment - timedelta_hours 24).

(** The decision [schedule_reminder_call] takes between its two branches. *)
Definition evaluateSchedulingEligibility (appointment now : datetime) : decision :=
  if appointment - timedelta_hours 24 <? now then placeNow
  else deferUntil (appointment - timedelta_hours 24).

(** A phone number passes basic normalization when, separators aside, it is
    an optional [+] and one to fifteen digits. *)
Definition is_digit (c : Ascii.ascii) : bool :=
  let n := Z.of_nat (Ascii.nat_of_ascii c) in (48 <=? n) && (n <=? 57).

Definition is_separator (c : Ascii.ascii) : bool :=
  existsb (fun s => bool_decide (c = s)) (String.list_ascii_of_string " -.()").

Definition phone_normalizable (phone : string) : bool :=
  let cs := List.filter (fun c => negb (is_separator c)) (String.list_ascii_of_string phone) in
  let ds := match cs with
            | c :: cs' => if bool_decide (c = "+"%char) then cs' else cs
            | [] => []
            end in
  forallb is_digit ds && (1 <=? Z.of_nat (List.length ds)) && (Z.of_nat (List.length ds) <=? 15).

End lifecycle.

(** ** A runtime and services to run the model on *)

Module sample.

Import twilio_service voice_agent appointment_service lifecycle.

(** *** Calendar arithmetic of the proleptic Gregorian calendar *)

Definition is_leap (y : Z) : bool :=
  ((y mod 4 =? 0) && negb (y mod 100 =? 0)) || (y mod 400 =? 0).

Definition days_in_month (y m : Z) : Z :=
  if m =? 2 then (if is_leap y then 29 else 28)
  else if (m =? 4) || (m =? 6) || (m =? 9) || (m =? 11) then 30
  else 31.

(** Days from 1970-01-01 to the given date. *)
Definition days_from_civil (y m d : Z) : Z :=
  let y' := if m <=? 2 then y - 1 else y in
  let era := y' / 400 in
  let yoe := y' - era * 400 in
  let mp := (m + 9) mod 12 in
  let doy := (153 * mp + 2) / 5 + d - 1 in
  let doe := yoe * 365 + yoe / 4 - yoe / 100 + doy in
  era * 146097 + doe - 719468.

(** Year, month and day of a day count from 1970-01-01. *)
Definition civil_from_days (z : Z) : Z * Z * Z :=
  let z' := z + 719468 in
  let era := z' / 146097 in
  let doe := z' - era * 146097 in
  let yoe := (doe - doe / 1460 + doe / 36524 - doe / 146096) / 365 in
  let doy := doe - (365 * yoe + yoe / 4 - yoe / 100) in
  let mp := (5 * doy + 2) / 153 in
  let d := doy - (153 * mp + 2) / 5 + 1 in
  let m := if mp <? 10 then mp + 3 else mp - 9 in
  let y := yoe + era * 400 + (if m <=? 2 then 1 else 0) in
  (y, m, d).

(** *** [datetime.fromisoformat] on [YYYY-MM-DD] and [YYYY-MM-DDTHH:MM:SS] *)

Definition digit (c : Ascii.ascii) : option Z :=
  if is_digit c then Some (Z.of_nat (Ascii.nat_of_ascii c) - 48) else None.

Fixpoint number (acc : Z) (cs : list Ascii.ascii) : option Z :=
  match cs with
  | [] => Some acc
  | c :: cs' => match digit c with
                | Some d => number (10 * acc + d) cs'
                | None => None
                end
  end.

Definition field (s : string) (start len : nat) : option Z :=
  number 0 (String.list_ascii_of_string (String.substring start len s)).

Definition sep (s : string) (pos : nat) (c : string) : bool :=
  bool_decide (String.substring pos 1 s = c).

Definition parse_date (s : string) : option Z :=
  match field s 0 4, field s 5 2, field s 8 2 with
  | Some y, Some m, Some d =>
      if sep s 4 "-" && sep s 7 "-" && (1 <=? y) && (1 <=? m) && (m <=? 12)
         && (1 <=? d) && (d <=? days_in_month y m)
      then Some (days_from_civil y m d) else None
  | _, _, _ => None
  end.

Definition parse_time (s : string) : option Z :=
  match field s 11 2, field s 14 2, field s 17 2 with
  | Some h, Some mi, Some sec =>
      if sep s 10 "T" && sep s 13 ":" && sep s 16 ":" && (h <=? 23) && (mi <=? 59)
         && (sec <=? 59)
      then Some ((h * 60 + mi) * 60 + sec) else None
  | _, _, _ => None
  end.

Definition invalid_isoformat (s : string) : exn :=
  ValueError (String.append "Invalid isoformat string: '" (String.append s "'")).

Definition iso_fromisoformat (s : string) : result datetime :=
  if bool_decide (String.length s = 10%nat) then
    match parse_date s with
    | Some days => Ok (days * 86400 * 1000000)
    | None => Raise (invalid_isoformat s)
    end
  else if bool_decide (String.length s = 19%nat) then
    match parse_date s, parse_time s with
    | Some days, Some secs => Ok ((days * 86400 + secs) * 1000000)
    | _, _ => Raise (invalid_isoformat s)
    end
  else Raise (invalid_isoformat s).

(** *** [strftime] with the directives [%A %B %d %I %M %p] *)

Definition two_digits (n : Z) : string :=
  if n <? 10 then String.append "0" (str_int n) else str_int n.

Definition day_name (wd : Z) : string :=
  nth (Z.to_nat wd)
    ["Monday"; "Tuesday"; "Wednesday"; "Thursday"; "Friday"; "Saturday"; "Sunday"] "".

Definition month_name (m : Z) : string :=
  nth (Z.to_nat (m - 1))
    ["January"; "February"; "March"; "April"; "May"; "June"; "July"; "August";
     "September"; "October"; "November"; "December"] "".

Definition directive (t : datetime) (c : Ascii.ascii) : string :=
  let secs := t / 1000000 in
  let days := secs / 86400 in
  let sod := secs mod 86400 in
  let '(_, m, d) := civil_from_days days in
  let h := sod / 3600 in
  if bool_decide (c = "A"%char) then day_name ((days + 3) mod 7)
  else if bool_decide (c = "B"%char) then month_name m
  else if bool_decide (c = "d"%char) then two_digits d
  else if bool_decide (c = "I"%char) then two_digits (if h mod 12 =? 0 then 12 else h mod 12)
  else if bool_decide (c = "M"%char) then two_digits ((sod / 60) mod 60)
  else if bool_decide (c = "p"%char) then (if h <? 12 then "AM" else "PM")
  else String "%" (String c "").

Fixpoint iso_strftime (t : datetime) (format : string) : string :=
  match format with
  | String "%" (String c rest) => String.append (directive t c) (iso_strftime t rest)
  | String c rest => String c (iso_strftime t rest)
  | EmptyString => ""
  end.

#[local] Instance iso_runtime : PyRuntime :=
  {| fromisoformat := iso_fromisoformat; strftime := iso_strftime |}.

(** *** Services *)

(** A script collaborator that answers with a fixed greeting. *)
Definition greeter : VoiceAgent :=
  {| get_appointment_reminder := fun name date custom =>
       Ok (String.append "Hello " (String.append name
            (String.append ", this is My Dentist calling about your appointment on " date))) |}.

(** A script collaborator that is down. *)
Definition silent : VoiceAgent :=
  {| get_appointment_reminder := fun _ _ _ => Raise (CollaboratorError "Connection error.") |}.

(** A gateway client that places every call and names it after its status
    URL. *)
Definition placing : Client :=
  {| calls_create := fun to from url status_callback events =>
       Ok (String.append "CA" (default "" status_callback)) |}.

(** A gateway client that refuses every call. *)
Definition refusing : Client :=
  {| calls_create := fun _ _ _ _ _ => Raise (CollaboratorError "Unable to create record") |}.

Definition line (c : option Client) : TwilioVoiceService :=
  {| account_sid := "AC0"; auth_token := "token"; phone_number := "+15550100"; client := c |}.

(** The service with both collaborators up. *)
Definition clinic : AppointmentService :=
  {| voice_agent := greeter; twilio_service := line (Some placing); base_url := "http://localhost:5000" |}.


(** The service whose gateway refuses calls. *)
Definition refused : AppointmentService :=
  {| voice_agent := greeter; twilio_service := line (Some refusing); base_url := "http://localhost:5000" |}.

(** The service whose script collaborator is down. *)
Definition mute : AppointmentService :=
  {| voice_agent := silent; twilio_service := line (Some placing); base_url := "http://localhost:5000" |}.

End sample.

(** ** What the calls leave behind *)

Module effects.

Import twilio_service voice_agent appointment_service lifecycle.

(** The world with a new table and more log lines. *)
Definition stored (w : world) (l : Session) (rs : list log_record) : world :=
  {| db := l; records := records w ++ rs; utc := utc w |}.

(** The status the reconciler's branches leave, by event kind. *)
Definition callback_status (kind : string) (old : reminder_status) : reminder_status :=
  if decide (kind = "completed") then sent
  else if decide (kind = "failed" \/ kind = "busy" \/ kind = "no-answer") then failed
  else old.

(** The table after the reconciler ran on it. *)
Definition reconciled (sid : option string) (kind : string) (now : datetime)
    (l : Session) : Session :=
  match first_index (call_sid_is sid) l with
  | None => l
  | Some h =>
      match l !! h with
      | Some r => <[h := with_status (callback_status kind (status r)) now r]> l
      | None => l
      end
  end.

(** The two URLs handed to the gateway for a reminder. *)
Definition callback_url (self : AppointmentService) (r : AppointmentReminder) : string :=
  String.append (base_url self)
    (String.append "/appointment-reminder-twiml/" (str_int (id r))).
Definition status_callback_url (self : AppointmentService) (r : AppointmentReminder) : string :=
  String.append (base_url self)
    (String.append "/call-status-callback/" (str_int (id r))).

(** What the two collaborators answer when a call is placed for a row: the
    reference of the call or the exception, and the lines [make_call]
    logs. *)
Definition placement `{PyRuntime} (self : AppointmentService) (r : AppointmentReminder)
    : result string * list log_record :=
  match get_appointment_reminder (voice_agent self) (patient_name r)
          (strftime (appointment_date r) "%A, %B %d at %I:%M %p") (message r) with
  | Raise e => (Raise e, [])
  | Ok _ =>
      match client (twilio_service self) with
      | None => (Raise (ValueError "Twilio client not initialized. Check your credentials."), [])
      | Some c =>
          match calls_create c (models.phone_number r)
                  (twilio_service.phone_number (twilio_service self))
                  (callback_url self r) (Some (status_callback_url self r))
                  ["initiated"; "ringing"; "answered"; "completed"] with
          | Ok sid =>
              (Ok sid, [Log INFO "Initiated call to {to_number}: {call.sid}"
                          [FStr (models.phone_number r); FStr sid]])
          | Raise e => (Raise e, [Log ERROR "Error making call: {str(e)}" [FExn e]])
          end
      end
  end.

(** No row is ever removed or moved, and a table changes in four ways only:
    a Scheduled row without reference is appended, a row takes a status
    other than Scheduled, or a row takes a reference together with Sent. *)
Inductive evolves (l : Session) : Session -> Prop :=
  | evolves_same : evolves l l
  | evolves_add r :
      status r = scheduled -> call_sid r = None -> evolves l (l ++ [r])
  | evolves_status h r s now :
      l !! h = Some r -> s <> scheduled ->
      evolves l (<[h := with_status s now r]> l)
  | evolves_placed h r sid now :
      l !! h = Some r ->
      evolves l (<[h := with_status sent now (with_call_sid (Some sid) now r)]> l).


End effects.

(** ** Worlds of the examples *)

Module examples.

Import appointment_service lifecycle sample.

(** 2030-01-01T10:00:00, the appointment of the examples. *)
Definition appointment : datetime := 1893492000000000.

Definition create_ann : operation :=
  CreateReminder "+15550123" "2030-01-01T10:00:00" "Ann" None.

(** Ann's reminder was created five days ahead. *)
Definition ann_created : world :=
  run (H := iso_runtime) clinic [(appointment - timedelta_hours 120, create_ann)] empty_world.

(** Her call was placed one minute into the last 24 hours. *)
Definition ann_sent : world :=
  run (H := iso_runtime) clinic
    [(appointment - timedelta_hours 24 + 60000000, ScheduleReminderCall 1)] ann_created.

Definition ann_sid : option string :=
  Some "CAhttp://localhost:5000/call-status-callback/1".

(** She pressed 1 during the call. *)
Definition ann_confirmed : world :=
  run (H := iso_runtime) clinic
    [(appointment - timedelta_hours 24 + 90000000, Confirmation 1 true)] ann_sent.

(** The gateway reported the call as failed instead. *)
Definition ann_failed : world :=
  run (H := iso_runtime) clinic
    [(appointment - timedelta_hours 24 + 90000000, CallStatus ann_sid "failed")] ann_sent.

End examples.

(** ** Reading the table in order *)

(** [str(e)] and [datetime.isoformat], which the endpoints put into their
    answers. *)
Class PyText := {
  str_exn : exn -> string;
  isoformat : datetime -> string
}.

(** [db.query(AppointmentReminder).filter(p).order_by(R).limit(n).all()]:
    the rows that satisfy [p], sorted by [R], the first [n] of them. The
    order among rows that [R] does not tell apart is the engine's; the
    model takes the one of a merge sort. *)
Definition query_filter_order_limit_all (p : AppointmentReminder -> Prop)
    `{forall r, Decision (p r)} (R : relation AppointmentReminder)
    `{forall x y, Decision (R x y)} (n : nat) : M (list AppointmentReminder) :=
  fun w => (Ok (take n (merge_sort R (filter p (db w)))), w).

(** [order_by(AppointmentReminder.appointment_date)] and its [.desc()]. *)
Definition by_date (x y : AppointmentReminder) : Prop :=
  appointment_date x <= appointment_date y.
Definition by_date_desc (x y : AppointmentReminder) : Prop :=
  appointment_date y <= appointment_date x.

#[global] Instance by_date_dec x y : Decision (by_date x y).
Proof. unfold by_date. apply _. Defined.
#[global] Instance by_date_desc_dec x y : Decision (by_date_desc x y).
Proof. unfold by_date_desc. apply _. Defined.

Module reading.

Import appointment_service.

(** [AppointmentService.get_upcoming_reminders(db, limit)]; [limit] counts
    rows. *)
Definition get_upcoming_reminders (self : AppointmentService) (limit : nat)
    : M (list AppointmentReminder) :=
  try_except
    ((* Get reminders with appointment date in the future *)
     let* now := utcnow in
     let* reminders :=
       query_filter_order_limit_all (fun r => now < appointment_date r) by_date limit in
     ret reminders)
    (fun e =>
       logger_error "Error getting upcoming reminders: {str(e)}" [FExn e];;
       ret []).

End reading.

(** ** Reminders as dictionaries ([models.py]) *)

Module models_dict.

(** The values [to_dict] puts under its keys. *)
Inductive value :=
  | VNone
  | VInt (n : Z)
  | VStr (s : string).

(** The column value of a status. *)
Definition status_name (s : reminder_status) : string :=
  match s with
  | scheduled => "scheduled"
  | sent => "sent"
  | confirmed => "confirmed"
  | rescheduled => "rescheduled"
  | failed => "failed"
  end.

Definition optional (s : option string) : value :=
  match s with
  | Some v => VStr v
  | None => VNone
  end.

Definition to_dict `{PyText} (self : AppointmentReminder) : gmap string value :=
  {[ "id" := VInt (id self);
     "patient_name" := VStr (patient_name self);
     "phone_number" := VStr (phone_number self);
     "appointment_date" := VStr (isoformat (appointment_date self));
     "message" := optional (message self);
     "status" := VStr (status_name (status self));
     "call_sid" := optional (call_sid self);
     "created_at" := VStr (isoformat (created_at self));
     "updated_at" := VStr (isoformat (updated_at self)) ]}.

End models_dict.

(** ** The other endpoints of [routes.py] *)

Module api.

Import twilio_service voice_agent appointment_service models_dict.

Section endpoints.
Context `{PyRuntime} `{PyText}.

(** [GET /api/reminders] *)
Definition get_reminders : M (list (string * list (gmap string value))) :=
  try_except
    (let* reminders :=
       query_filter_order_limit_all (fun _ => True) by_date_desc 10 in
     ret [("reminders", to_dict <$> reminders)])
    (fun e =>
       logger_error "Error getting reminders: {str(e)}" [FExn e];;
       raise (HTTPException 500 "Error retrieving reminders")).


(** [GET /appointment-reminder-twiml/{reminder_id}] *)
Definition get_appointment_reminder_twiml (reminder_id : Z) (voice_agent : VoiceAgent)
    (twilio_service : TwilioVoiceService) : M VoiceResponse :=
  try_except
    (let* reminder := query_filter_first (id_is reminder_id) in
     match reminder with
     | None =>
         raise (HTTPException 404
                  (String.append "Reminder with ID "
                     (String.append (str_int reminder_id) " not found")))
     | Some reminder =>
         (* Get reminder text from voice agent *)
         let* name := getattr reminder patient_name in
         let* date := getattr reminder appointment_date in
         let* custom := getattr reminder message in
         let* reminder_text :=
           lift (get_appointment_reminder voice_agent name
                   (strftime date "%A, %B %d at %I:%M %p") custom) in
         (* Generate TwiML *)
         let twiml := generate_appointment_reminder_twiml twilio_service reminder_text in
         ret twiml
     end)
    (fun e =>
       match e with
       | HTTPException _ _ => raise e
       | _ =>
           logger_error "Error generating TwiML: {str(e)}" [FExn e];;
           raise (HTTPException 500 "Error generating TwiML")
       end).

(** [POST /appointment-confirm]. The key and the reference are the
    placeholders the source has in place of the request's. *)
Definition appointment_confirm (appointment_service : AppointmentService)
    : M (list (string * string)) :=
  try_except
    (let digit_pressed := "1" in
     let call_sid := "example_call_sid" in
     (* Find reminder by call SID *)
     let* reminder := query_filter_first (call_sid_is (Some call_sid)) in
     match reminder with
     | None =>
         raise (HTTPException 404
                  (String.append "No reminder found for call SID " call_sid))
     | Some reminder =>
         (* Handle confirmation *)
         let confirmed := bool_decide (digit_pressed = "1") in
         let* rid := getattr reminder id in
         appointment_service.handle_appointment_confirmation appointment_service rid confirmed;;
         (* Return appropriate TwiML *)
         if confirmed then ret [("message", "Appointment confirmed")]
         else ret [("message", "Appointment rescheduling requested")]
     end)
    (fun e =>
       match e with
       | HTTPException _ _ => raise e
       | _ =>
           logger_error "Error confirming appointment: {str(e)}" [FExn e];;
           raise (HTTPException 500 "Error confirming appointment")
       end).

End endpoints.

End api.

(** ** Inbound calls ([twilio_service.py]) *)

Module inbound.

Import twilio_service.

(** The verbs of the inbound scripts; their [Gather] listens for speech. *)
Inductive verb :=
  | Say (text : string)
  | Gather (input action method speech_timeout language : string) (nested : list string)
  | Hangup.

Definition VoiceResponse := list verb.

Definition say (text : string) (response : VoiceResponse) : VoiceResponse :=
  response ++ [Say text].
Definition append (v : verb) (response : VoiceResponse) : VoiceResponse :=
  response ++ [v].
Definition hangup (response : VoiceResponse) : VoiceResponse :=
  response ++ [Hangup].

(** What [handle_incoming_call] uses of the voice agent:
    [process_voice_input(text_input, call_metadata)]. *)
Record Responder := {
  process_voice_input : string -> gmap string (option string) -> result string
}.

Definition handle_incoming_call (self : TwilioVoiceService)
    (request_data : gmap string string) (voice_agent : Responder) : M VoiceResponse :=
  try_except
    (let response := [] in
     (* Get call information *)
     let call_sid := request_data !! "CallSid" in
     let caller := default "Unknown" (request_data !! "From") in
     let* response :=
       (* Check if this is a response to a gather *)
       if decide (is_Some (request_data !! "SpeechResult")) then
         (* Process the speech input *)
         let speech_input := default "" (request_data !! "SpeechResult") in
         (* Get response from the voice agent *)
         let* agent_response :=
           lift (process_voice_input voice_agent speech_input {[ "call_sid" := call_sid ]}) in
         (* Say the response *)
         let response := say agent_response response in
         (* Gather the next input *)
         let gather :=
           Gather "speech" "/voice-webhook" "POST" "auto" "en-US"
             ["Is there anything else I can help you with?"] in
         let response := append gather response in
         (* If no input, end the call *)
         let response := say "Thank you for calling My Dentist. Goodbye!" response in
         ret (hangup response)
       else
         (* Initial greeting *)
         let greeting :=
           "Thank you for calling My Dentist. I'm the automated assistant. How can I help you today?" in
         (* Gather the caller's speech input *)
         let gather := Gather "speech" "/voice-webhook" "POST" "auto" "en-US" [greeting] in
         let response := append gather response in
         (* If no input, repeat the greeting *)
         let response := say (String.append "I didn't hear anything. " greeting) response in
         (* Set up another gather *)
         let gather := Gather "speech" "/voice-webhook" "POST" "auto" "en-US" [] in
         let response := append gather response in
         (* If still no input, end the call *)
         let response :=
           say "I didn't receive any input. Please call back when you're ready. Goodbye!"
             response in
         ret (hangup response) in
     logger_info "Generated TwiML response for call {call_sid}" [FOptStr call_sid];;
     ret response)
    (fun e =>
       logger_error "Error handling incoming call: {str(e)}" [FExn e];;
       (* Create a simple response in case of error *)
       let response := [] in
       let response :=
         say "I'm sorry, there was an error processing your request. Please try again later."
           response in
       ret (hangup response)).

End inbound.

(** ** The voice agent ([voice_agent.py]) *)

Module agent.

(** A line feed. *)
Definition lf : string := String "010"%char "".

(** The completion client:
    [client.chat.completions.create(model, messages, temperature,
    max_tokens)] answers with the content of the first choice or raises. *)
Record ChatClient := {
  chat_completions_create :
    string -> list (gmap string string) -> Q -> Z -> result string
}.

(** What the agent uses of the knowledge base: [query(query, top_k)]
    answers with texts, each with its metadata and score. *)
Record KnowledgeBase := {
  metadata : Type;
  score : Type;
  query : string -> Z -> list (string * metadata * score)
}.

Record VoiceAgent := {
  client : ChatClient;
  model_name : string;
  knowledge_base : KnowledgeBase;
  DEFAULT_SYSTEM_PROMPT : string;
  APPOINTMENT_REMINDER_PROMPT : string
}.

(** [VoiceAgent.__init__], given the client it builds from the API key. *)
Definition new_VoiceAgent (client : ChatClient) (model_name : string)
    (knowledge_base : KnowledgeBase) : VoiceAgent :=
  {| client := client; model_name := model_name; knowledge_base := knowledge_base;
     DEFAULT_SYSTEM_PROMPT :=
       String.concat lf
         [""; 
          "        You are a helpful dental assistant for 'My Dentist' practice. ";
          "        Your name is Dental Assistant. You help patients by answering their questions about ";
          "        dental procedures, office policies, and appointment information.";
          "        ";
          "        Be professional, friendly, and concise in your responses.";
          "        If you don't know an answer, politely say so and offer to connect them with a human staff member.";
          "        ";
          "        Always speak as if you're having a voice conversation. Keep responses brief and natural.";
          "        "];
     APPOINTMENT_REMINDER_PROMPT :=
       String.concat lf
         [""; 
          "        You are calling to remind a patient about their upcoming dental appointment.";
          "        Be professional, friendly, and concise.";
          "        ";
          "        Include the following information in your reminder:";
          "        1. Identify yourself as calling from 'My Dentist' office";
          "        2. Mention the patient's name";
          "        3. State the appointment date and time";
          "        4. Ask them to confirm if they'll attend";
          "        5. If they confirm, thank them";
          "        6. If they need to reschedule, tell them you'll connect them with the front desk";
          "        ";
          "        Keep the conversation brief and natural, as if you're having a phone conversation.";
          "        "] |}.

Definition chat_message (role content : string) : gmap string string :=
  {[ "role" := role; "content" := content ]}.

(** The lines [f"{i}. {doc}\n"] for the texts found, numbered from [i]. *)
Fixpoint numbered (i : Z) (docs : list string) : string :=
  match docs with
  | [] => ""
  | doc :: docs' =>
      String.append (str_int i)
        (String.append ". " (String.append doc (String.append lf (numbered (i + 1) docs'))))
  end.

Definition get_response (self : VoiceAgent) (user_input : string)
    (conversation_history : option (list (gmap string string)))
    (system_prompt : option string) : result string :=
  let conversation_history := default [] conversation_history in
  let system_prompt := default (DEFAULT_SYSTEM_PROMPT self) system_prompt in
  (* Retrieve relevant information from knowledge base *)
  let relevant_info := query (knowledge_base self) user_input 3 in
  (* Format the retrieved information *)
  let context_str :=
    match relevant_info with
    | [] => ""
    | _ :: _ =>
        String.append
          (String.append "Information from dental practice knowledge base:" lf)
          (numbered 1 ((fun found => fst (fst found)) <$> relevant_info))
    end in
  (* Prepare messages for the model *)
  let messages := [chat_message "system" system_prompt] in
  (* Add context if available *)
  let messages :=
    if decide (context_str = "") then messages
    else
      messages ++
      [chat_message "system"
         (String.append
            (String.append "Use the following information to answer the question if relevant:" lf)
            context_str)] in
  (* Add conversation history *)
  let messages := messages ++ conversation_history in
  (* Add the current user message *)
  let messages := messages ++ [chat_message "user" user_input] in
  (* Get response from OpenAI *)
  chat_completions_create (client self) (model_name self) messages 0.7%Q 200.

Definition get_appointment_reminder (self : VoiceAgent)
    (patient_name appointment_date : string) (custom_message : option string)
    : result string :=
  (* Prepare the prompt with appointment details *)
  let prompt :=
    String.concat ""
      [lf; "        You're calling to remind "; patient_name;
       " about their dental appointment on "; appointment_date; "."; lf; "        "] in
  let prompt :=
    match custom_message with
    | Some text =>
        if decide (text = "") then prompt
        else String.concat "" [prompt; lf; "Additional information: "; text]
    | None => prompt
    end in
  let messages :=
    [chat_message "system" (APPOINTMENT_REMINDER_PROMPT self);
     chat_message "user" prompt] in
  (* Get response from OpenAI *)
  chat_completions_create (client self) (model_name self) messages 0.7%Q 200.

Definition process_voice_input (self : VoiceAgent) (text_input : string)
    (call_metadata : option (gmap string (option string))) : result string :=
  (* Initialize conversation or get history if exists *)
  let conversation_id : option (option string) :=
    match call_metadata with
    | Some found => found !! "conversation_id"
    | None => None
    end in
  let conversation_history := [] in
  (* Get response *)
  get_response self text_input (Some conversation_history) None.

(** The agent as the reminder service's collaborator, and as the inbound
    flow's. *)
Definition as_collaborator (self : VoiceAgent) : voice_agent.VoiceAgent :=
  {| voice_agent.get_appointment_reminder := get_appointment_reminder self |}.

Definition as_responder (self : VoiceAgent) : inbound.Responder :=
  {| inbound.process_voice_input := fun text found =>
       process_voice_input self text (Some found) |}.

End agent.

(** ** The application's endpoints ([app.py]) *)

Module app.

Import appointment_service.

Record JSONResponse := {
  status_code : Z;
  content : list (string * models_dict.value)
}.

Section endpoints.
Context `{PyRuntime} `{PyText}.

(** [POST /schedule-reminder]. The answer comes with the tasks handed to
    [background_tasks], which run once the answer is sent. *)
Definition schedule_reminder (appointment_service : AppointmentService)
    (phone_number appointment_date patient_name : string) (message : option string)
    : M (JSONResponse * list (M unit)) :=
  try_except
    (let* reminder_id :=
       create_appointment_reminder appointment_service phone_number appointment_date
         patient_name message in
     (* Schedule the call in the background *)
     let background_tasks := [schedule_reminder_call appointment_service reminder_id] in
     ret ({| status_code := 200;
             content := [("message", models_dict.VStr "Reminder scheduled successfully");
                         ("reminder_id", models_dict.VInt reminder_id)] |},
          background_tasks))
    (fun e => raise (HTTPException 500 (str_exn e))).

(** [POST /voice-webhook] *)
Definition voice_webhook (twilio_service : twilio_service.TwilioVoiceService)
    (voice_agent : inbound.Responder) (request_data : gmap string string)
    : M inbound.VoiceResponse :=
  try_except
    (let* response := inbound.handle_incoming_call twilio_service request_data voice_agent in
     ret response)
    (fun e => raise (HTTPException 500 (str_exn e))).

End endpoints.

(** The tasks run in order once the answer is sent, at a later reading of
    the clock; what a task returns or raises is dropped. *)
Fixpoint run_tasks (tasks : list (M unit)) (w : world) : world :=
  match tasks with
  | [] => w
  | task :: tasks' => run_tasks tasks' (snd (task w))
  end.

(** A request served at [now], its background tasks run at [later]. *)
Definition serve {A} (endpoint : M (A * list (M unit))) (now later : datetime)
    (w : world) : result A * world :=
  match endpoint (lifecycle.at_time now w) with
  | (Ok (answer, tasks), w') => (Ok answer, run_tasks tasks (lifecycle.at_time later w'))
  | (Raise e, w') => (Raise e, w')
  end.

End app.

(** ** A text runtime and a voice agent to run the model on *)

Module sample_text.

Import sample.

Definition pad (width : nat) (n : Z) : string :=
  let digits := str_int n in
  String.append (String.concat "" (replicate (width - String.length digits) "0")) digits.

(** [datetime.isoformat()]: seconds, and microseconds when there are any. *)
Definition iso_isoformat (t : datetime) : string :=
  let micro := t mod 1000000 in
  let secs := t / 1000000 in
  let days := secs / 86400 in
  let sod := secs mod 86400 in
  let '(y, m, d) := civil_from_days days in
  String.concat ""
    ([pad 4 y; "-"; pad 2 m; "-"; pad 2 d; "T";
      pad 2 (sod / 3600); ":"; pad 2 ((sod / 60) mod 60); ":"; pad 2 (sod mod 60)]
     ++ (if micro =? 0 then [] else ["."; pad 6 micro])).

Definition message_of (e : exn) : string :=
  match e with
  | ValueError m | OverflowError m | CollaboratorError m => m
  | HTTPException c d => String.concat "" [str_int c; ": "; d]
  | ObjectDeletedError => "Instance has been deleted, or its row is otherwise not present."
  end.

Definition iso_text : PyText :=
  {| str_exn := message_of; isoformat := iso_isoformat |}.

(** A completion client that answers with the number of messages it was
    sent, and one that is down. *)
Definition counting : agent.ChatClient :=
  {| agent.chat_completions_create := fun model messages temperature max_tokens =>
       Ok (String.append "messages: " (str_int (Z.of_nat (List.length messages)))) |}.

Definition down : agent.ChatClient :=
  {| agent.chat_completions_create := fun _ _ _ _ =>
       Raise (CollaboratorError "Connection error.") |}.

(** A knowledge base that knows the opening hours, and an empty one. *)
Definition hours : agent.KnowledgeBase :=
  {| agent.metadata := unit; agent.score := unit;
     agent.query := fun text top_k =>
       [("We are open 9 to 5.", tt, tt); ("Closed on Sundays.", tt, tt)] |}.

Definition empty_base : agent.KnowledgeBase :=
  {| agent.metadata := unit; agent.score := unit; agent.query := fun _ _ => [] |}.

Definition assistant : agent.VoiceAgent := agent.new_VoiceAgent counting "gpt-4o" hours.
Definition offline : agent.VoiceAgent := agent.new_VoiceAgent down "gpt-4o" hours.

End sample_text.

(** ** One operation on the table *)

Module frames.

(** Two rows agree on what creation fixed. *)
Definition same_creation (r r' : AppointmentReminder) : Prop :=
  id r' = id r /\ patient_name r' = patient_name r /\
  phone_number r' = phone_number r /\ appointment_date r' = appointment_date r /\
  message r' = message r /\ created_at r' = created_at r.

(** What one operation does to the table: nothing, or it appends a row
    under the next key, or it rewrites one row and keeps what creation
    fixed. *)
Inductive changes (l : Session) : Session -> Prop :=
  | changes_none : changes l l
  | changes_insert r : id r = next_id l -> changes l (l ++ [r])
  | changes_update h r r' :
      l !! h = Some r -> same_creation r r' -> changes l (<[h := r']> l).

(** The keys count the rows from 1. *)
Definition keyed (l : Session) : Prop :=
  forall h r, l !! h = Some r -> id r = Z.of_nat (S h).

End frames.

(** ** What the completion service is sent *)

Module requests.

Import agent.

(** The context message for the texts the knowledge base found: none when
    it found nothing. *)
Definition context_messages (found : list string) : list (gmap string string) :=
  match found with
  | [] => []
  | _ :: _ =>
      [chat_message "system"
         (String.append
            (String.append "Use the following information to answer the question if relevant:" lf)
            (String.append
               (String.append "Information from dental practice knowledge base:" lf)
               (numbered 1 found)))]
  end.

(** The texts of what a query found. *)
Definition texts_found (self : VoiceAgent) (user_input : string) : list string :=
  (fun found => fst (fst found)) <$> query (knowledge_base self) user_input 3.

(** The script that follows the agent's reply to a caller's speech. *)
Definition reply_script (reply : string) : inbound.VoiceResponse :=
  [inbound.Say reply;
   inbound.Gather "speech" "/voice-webhook" "POST" "auto" "en-US"
     ["Is there anything else I can help you with?"];
   inbound.Say "Thank you for calling My Dentist. Goodbye!";
   inbound.Hangup].

(** The script after an error. *)
Definition apology_script : inbound.VoiceResponse :=
  [inbound.Say "I'm sorry, there was an error processing your request. Please try again later.";
   inbound.Hangup].

End requests.

(** ** Measures of a confirmation script *)

Module scripts.

Import twilio_service.

(** How many gathers a script holds. *)
Fixpoint gathers (script : VoiceResponse) : nat :=
  match script with
  | [] => 0
  | Gather _ _ _ _ :: rest => S (gathers rest)
  | _ :: rest => gathers rest
  end.

(** The instants a reminder's dictionary prints. *)
Definition instants (r : AppointmentReminder) : list datetime :=
  [appointment_date r; created_at r; updated_at r].

End scripts.

(** * Properties *)

Import twilio_service voice_agent appointment_service lifecycle effects.

(** ** The session *)

Lemma first_index_Some p l h :
  first_index p l = Some h -> exists r, l !! h = Some r /\ p r = true.
Proof.
  revert h. induction l as [|a l IH]; intros h; simpl; [discriminate|].
  destruct (p a) eqn:Hp.
  - intros [= <-]. exists a. by split.
  - destruct (first_index p l) as [k|]; simpl; [|discriminate].
    intros [= <-]. destruct (IH k eq_refl) as (r & Hr & Hpr). by exists r.
Qed.

Lemma first_index_None p l :
  first_index p l = None <-> forall r, r ∈ l -> p r = false.
Proof.
  induction l as [|a l IH]; simpl.
  - split; [intros _ r Hr; by apply elem_of_nil in Hr | done].
  - destruct (p a) eqn:Hp.
    + split; [discriminate|]. intros Hall.
      specialize (Hall a (list_elem_of_here a l)). congruence.
    + destruct (first_index p l) as [k|]; simpl.
      * split; [discriminate|]. intros Hall.
        assert (Hn : @None handle = None) by done.
        assert (Some k = None) as [=].
        apply IH. intros r Hr. apply Hall. by apply list_elem_of_further.
      * split; [|done]. intros _ r Hr.
        apply elem_of_cons in Hr as [->|Hr]; [done|].
        destruct IH as [IH _]. by apply IH.
Qed.

Lemma first_index_is_Some p l r :
  r ∈ l -> p r = true -> is_Some (first_index p l).
Proof.
  intros Hr Hp. destruct (first_index p l) eqn:E; [by eexists|].
  rewrite first_index_None in E. rewrite (E r Hr) in Hp. discriminate.
Qed.

Lemma with_status_same now r : with_status (status r) now r = r.
Proof. destruct r. unfold with_status. simpl. by rewrite decide_True. Qed.

Lemma with_status_twice s now now' r :
  with_status s now' (with_status s now r) = with_status s now r.
Proof. unfold with_status. simpl. by rewrite (decide_True (P := s = s)). Qed.

Lemma stored_same w : stored w (db w) [] = w.
Proof. destruct w. unfold stored. simpl. by rewrite app_nil_r. Qed.

(** ** The reconciler, branch by branch *)

(** Unfold the effect primitives of a call. *)
Ltac py_unfold :=
  unfold void, db_commit, db_refresh, db_rollback, logger_info, logger_warning,
    logger_error;
  unfold try_except, bind, ret, raise, lift, utcnow, logger, query_filter_first,
    getattr, setattr, db_add, stored; cbv beta.

(** Read back rows that were just written. *)
Ltac py_read :=
  repeat (rewrite list_lookup_insert_eq by (rewrite ?length_insert; done); simpl).

Lemma handle_call_status_callback_unmatched self sid kind w :
  first_index (call_sid_is sid) (db w) = None ->
  handle_call_status_callback self sid kind w =
    (Ok tt, stored w (db w)
              [Log WARNING "No reminder found for call SID {call_sid}" [FOptStr sid]]).
Proof.
  intros E. unfold handle_call_status_callback. py_unfold.
  rewrite E. reflexivity.
Qed.

Lemma handle_call_status_callback_matched self sid kind w h r :
  first_index (call_sid_is sid) (db w) = Some h ->
  db w !! h = Some r ->
  handle_call_status_callback self sid kind w =
    (Ok tt, stored w (<[h := with_status (callback_status kind (status r)) (utc w) r]> (db w))
              [Log INFO "Updated status for reminder {reminder.id} to {reminder.status}"
                 [FInt (id r); FStatus (callback_status kind (status r))]]).
Proof.
  intros E Hr.
  assert (Hlt : (h < length (db w))%nat) by (eapply lookup_lt_Some; eauto).
  unfold handle_call_status_callback, callback_status. py_unfold.
  rewrite E.
  destruct (decide (kind = "completed")) as [Hc|Hc].
  - rewrite Hr. simpl. py_read. reflexivity.
  - destruct (decide (kind = "failed" \/ kind = "busy" \/ kind = "no-answer")) as [Hf|Hf].
    + rewrite Hr. simpl. py_read. reflexivity.
    + simpl. repeat (rewrite Hr; simpl).
      rewrite with_status_same, list_insert_id by done. reflexivity.
Qed.

Lemma handle_call_status_callback_reconciled self sid kind w :
  fst (handle_call_status_callback self sid kind w) = Ok tt /\
  db (snd (handle_call_status_callback self sid kind w)) = reconciled sid kind (utc w) (db w).
Proof.
  unfold reconciled.
  destruct (first_index (call_sid_is sid) (db w)) as [h|] eqn:E.
  - destruct (first_index_Some _ _ _ E) as (r & Hr & _).
    rewrite (handle_call_status_callback_matched self sid kind w h r E Hr), Hr. by split.
  - rewrite (handle_call_status_callback_unmatched self sid kind w E). by split.
Qed.

Lemma first_index_insert p (l : Session) h r r' :
  l !! h = Some r -> p r' = p r -> first_index p (<[h := r']> l) = first_index p l.
Proof.
  revert h. induction l as [|a l IH]; intros h Hr Hp; [done|].
  destruct h as [|h]; simpl in *.
  - injection Hr as ->. by rewrite Hp.
  - by rewrite (IH h Hr Hp).
Qed.

Lemma reconciled_twice sid kind now now' l :
  reconciled sid kind now' (reconciled sid kind now l) = reconciled sid kind now l.
Proof.
  unfold reconciled at 2.
  destruct (first_index (call_sid_is sid) l) as [h|] eqn:E.
  - destruct (first_index_Some _ _ _ E) as (r & Hr & _). rewrite Hr.
    assert (Hlt : (h < length l)%nat) by (eapply lookup_lt_Some; eauto).
    unfold reconciled. rewrite (first_index_insert _ l h r) by done. rewrite E.
    rewrite list_lookup_insert_eq by done. rewrite list_insert_insert_eq. simpl.
    replace (callback_status kind (callback_status kind (status r)))
      with (callback_status kind (status r))
      by (unfold callback_status; repeat case_decide; done).
    by rewrite with_status_twice, Hr.
  - unfold reconciled. by rewrite E.
Qed.

Lemma callback_status_other kind s :
  kind <> "completed" -> kind <> "failed" -> kind <> "busy" -> kind <> "no-answer" ->
  callback_status kind s = s.
Proof.
  intros Hc Hf Hb Hn. unfold callback_status.
  rewrite decide_False by done. rewrite decide_False by intuition. done.
Qed.

(** The status the reconciler's branches assign for the four kinds they
    test. *)
Lemma callback_status_four k s :
  k = "completed" \/ k = "failed" \/ k = "busy" \/ k = "no-answer" ->
  callback_status k s = if decide (k = "completed") then sent else failed.
Proof.
  intros Hk. unfold callback_status.
  destruct (decide (k = "completed")); [done|].
  rewrite decide_True by tauto. done.
Qed.

(** ** The status webhook, branch by branch *)

Lemma call_status_callback_unknown_id reminder_id self w :
  first_index (id_is reminder_id) (db w) = None ->
  routes.call_status_callback reminder_id self w =
    (Raise (HTTPException 404
              (String.append "Reminder with ID "
                 (String.append (str_int reminder_id) " not found"))), w).
Proof.
  intros E. unfold routes.call_status_callback. py_unfold. by rewrite E.
Qed.

Lemma call_status_callback_known_id reminder_id self w h r :
  first_index (id_is reminder_id) (db w) = Some h ->
  db w !! h = Some r ->
  routes.call_status_callback reminder_id self w =
    (Ok [("message", "Status updated successfully")],
     snd (handle_call_status_callback self (call_sid r) "completed" w)).
Proof.
  intros E Hr.
  destruct (handle_call_status_callback_reconciled self (call_sid r) "completed" w) as [Hok _].
  unfold routes.call_status_callback.
  unfold try_except at 1. unfold bind at 1. unfold query_filter_first. rewrite E.
  unfold bind at 1. unfold getattr. rewrite Hr.
  unfold bind at 1.
  destruct (handle_call_status_callback self (call_sid r) "completed" w) as [res w'].
  simpl in *. by subst res.
Qed.

(** ** Reconciliation *)




Lemma with_status_fixed s now r : with_status s now r = r <-> status r = s.
Proof.
  split.
  - intros Heq. by rewrite <- Heq.
  - intros <-. apply with_status_same.
Qed.

Lemma list_insert_fixed (l : Session) h r r' :
  l !! h = Some r -> <[h := r']> l = l <-> r' = r.
Proof.
  intros Hr. split.
  - intros Heq. rewrite <- Heq in Hr.
    rewrite list_lookup_insert_eq in Hr by (rewrite <- Heq at 1; eapply lookup_lt_Some; eauto).
    congruence.
  - intros ->. by apply list_insert_id.
Qed.

(** C5, as the code has it: reconciliation is idempotent. Delivering the
    same event for the same reference a second time, at any later clock
    reading, returns normally, as the first delivery did, and leaves every
    stored reminder exactly as the first delivery left it. The two
    deliveries are no no-op on a reminder in a terminal status: the matched
    reminder ends with the status of the event kind, Sent for completed and
    Failed for failed, busy and no-answer, so the table is as before the
    deliveries exactly when the reminder had that status already or the
    kind is none of the four. When no reminder is matched nothing
    changes. *)
Theorem reconcile_idempotent self sid kind now now' w :
  let once := handle_call_status_callback self sid kind (at_time now w) in
  let twice := handle_call_status_callback self sid kind (at_time now' (snd once)) in
  fst once = Ok tt /\ fst twice = Ok tt /\ db (snd twice) = db (snd once) /\
  (first_index (call_sid_is sid) (db w) = None -> db (snd twice) = db w) /\
  (forall h r,
     first_index (call_sid_is sid) (db w) = Some h ->
     db w !! h = Some r ->
     (kind = "completed" ->
      db (snd twice) = <[h := with_status sent now r]> (db w)) /\
     (kind = "failed" \/ kind = "busy" \/ kind = "no-answer" ->
      db (snd twice) = <[h := with_status failed now r]> (db w)) /\
     (db (snd twice) = db w <->
      (kind = "completed" -> status r = sent) /\
      (kind = "failed" \/ kind = "busy" \/ kind = "no-answer" -> status r = failed))).
Proof.
  intros once twice. subst once twice.
  destruct (handle_call_status_callback_reconciled self sid kind (at_time now w)) as [Hok Hdb].
  destruct (handle_call_status_callback_reconciled self sid kind
              (at_time now' (snd (handle_call_status_callback self sid kind (at_time now w)))))
    as [Hok' Hdb'].
  assert (Htwice : db (snd (handle_call_status_callback self sid kind
                              (at_time now' (snd (handle_call_status_callback self sid kind
                                                    (at_time now w))))))
                   = reconciled sid kind now (db w)).
  { rewrite Hdb'. cbn [db utc at_time]. rewrite Hdb. cbn [db utc at_time].
    apply reconciled_twice. }
  split; [done|]. split; [done|]. split; [by rewrite Htwice, Hdb|]. split.
  - intros E. rewrite Htwice. unfold reconciled. by rewrite E.
  - intros h r E Hr. rewrite Htwice. unfold reconciled. rewrite E, Hr.
    split; [|split].
    + intros ->. unfold callback_status. by rewrite decide_True.
    + intros Hk. by rewrite (callback_status_four kind) by tauto;
        rewrite decide_False by (intros ->; destruct Hk as [Hk|[Hk|Hk]]; discriminate Hk).
    + rewrite (list_insert_fixed (db w) h r) by done.
      rewrite with_status_fixed. unfold callback_status.
      destruct (decide (kind = "completed")) as [Hc|Hc].
      * split; [intros Hs; split; [done|] | intros [Hs _]; by apply Hs].
        intros Hk. subst kind. destruct Hk as [Hk|[Hk|Hk]]; discriminate Hk.
      * destruct (decide (kind = "failed" \/ kind = "busy" \/ kind = "no-answer")) as [Hf|Hf].
        -- split; [intros Hs; split; [done | done] | intros [_ Hs]; by apply Hs].
        -- split; [intros _; split; intros; done | done].
Qed.

Lemma reconcile_idempotent_witness :
  first_index (call_sid_is examples.ann_sid) (db examples.ann_sent) = Some 0%nat /\
  (status <$> db examples.ann_sent !! 0%nat) = Some sent /\
  db (snd (handle_call_status_callback sample.clinic examples.ann_sid "completed"
             (at_time (examples.appointment + 1)
                (snd (handle_call_status_callback sample.clinic examples.ann_sid "completed"
                        (at_time examples.appointment examples.ann_sent))))))
    = db examples.ann_sent.
Proof.
  pose (ann := {| id := 1; patient_name := "Ann"; models.phone_number := "+15550123";
                  appointment_date := examples.appointment; message := None;
                  status := sent; call_sid := examples.ann_sid;
                  created_at := 1893060000000000; updated_at := 1893405660000000 |}).
  assert (Hann : db examples.ann_sent !! 0%nat = Some ann) by (vm_compute; reflexivity).
  assert (E : first_index (call_sid_is examples.ann_sid) (db examples.ann_sent) = Some 0%nat)
    by (vm_compute; reflexivity).
  split; [exact E|]. split; [by rewrite Hann|].
  destruct (reconcile_idempotent sample.clinic examples.ann_sid "completed"
              examples.appointment (examples.appointment + 1) examples.ann_sent)
    as (_ & _ & _ & _ & Hmatched).
  destruct (Hmatched 0%nat ann E Hann) as (_ & _ & Hsame).
  apply Hsame. split; [reflexivity|].
  intros [Hk|[Hk|Hk]]; discriminate Hk.
Defined.

(** C5, as the claim states it, fails: Ann's reminder is Failed, a terminal
    status, when the completed event for her call is delivered twice; the
    two deliveries return normally but are no no-op, they leave the
    reminder Sent. *)
Lemma completed_twice_on_failed_is_no_noop :
  let once := handle_call_status_callback sample.clinic examples.ann_sid "completed"
                (at_time examples.appointment examples.ann_failed) in
  let twice := handle_call_status_callback sample.clinic examples.ann_sid "completed"
                 (at_time (examples.appointment + 1) (snd once)) in
  (status <$> db examples.ann_failed !! 0%nat) = Some failed /\
  terminal failed = true /\
  fst once = Ok tt /\ fst twice = Ok tt /\
  (status <$> db (snd twice) !! 0%nat) = Some sent /\
  db (snd twice) <> db examples.ann_failed.
Proof. vm_compute. repeat split. discriminate. Qed.

(** C10: an event whose kind is none of completed, failed, busy and
    no-answer changes no stored reminder: the call returns normally and the
    table, the matched reminder with all its columns included, is the one
    it found. *)
Theorem reconcile_ignores_other_kinds self sid kind w :
  kind <> "completed" -> kind <> "failed" -> kind <> "busy" -> kind <> "no-answer" ->
  fst (handle_call_status_callback self sid kind w) = Ok tt /\
  db (snd (handle_call_status_callback self sid kind w)) = db w.
Proof.
  intros Hc Hf Hb Hn.
  destruct (handle_call_status_callback_reconciled self sid kind w) as [Hok Hdb].
  split; [done|]. rewrite Hdb. unfold reconciled.
  destruct (first_index (call_sid_is sid) (db w)) as [h|]; [|done].
  destruct (db w !! h) as [r|] eqn:Hr; [|done].
  rewrite callback_status_other by done.
  rewrite with_status_same. by apply list_insert_id.
Qed.

Lemma reconcile_ignores_other_kinds_witness :
  "ringing" <> "completed" /\ "ringing" <> "failed" /\ "ringing" <> "busy" /\
  "ringing" <> "no-answer" /\
  db (snd (handle_call_status_callback sample.clinic examples.ann_sid "ringing"
             (at_time (examples.appointment - timedelta_hours 23) examples.ann_sent)))
    = db examples.ann_sent.
Proof.
  repeat (split; [discriminate|]).
  apply (reconcile_ignores_other_kinds sample.clinic examples.ann_sid "ringing"
           (at_time (examples.appointment - timedelta_hours 23) examples.ann_sent));
    discriminate.
Defined.

(** C6, as the code has it: reconciling an event whose reference no stored
    reminder carries returns normally, logs one warning and leaves the
    table as it was, so no reminder is created and none is changed. The
    webhook endpoint does not go by the reference: it looks the reminder up
    by the id in its URL and answers 404 when no stored reminder has that
    id. *)
Theorem reconcile_unknown_reference self sid kind reminder_id w :
  (forall r, r ∈ db w -> call_sid r <> sid) ->
  (forall r, r ∈ db w -> id r <> reminder_id) ->
  handle_call_status_callback self sid kind w =
    (Ok tt, stored w (db w)
              [Log WARNING "No reminder found for call SID {call_sid}" [FOptStr sid]]) /\
  routes.call_status_callback reminder_id self w =
    (Raise (HTTPException 404
              (String.append "Reminder with ID "
                 (String.append (str_int reminder_id) " not found"))), w).
Proof.
  intros Hsid Hid. split.
  - apply handle_call_status_callback_unmatched. apply first_index_None.
    intros r Hr. unfold call_sid_is. apply bool_decide_eq_false. by apply Hsid.
  - apply call_status_callback_unknown_id. apply first_index_None.
    intros r Hr. unfold id_is. apply bool_decide_eq_false. by apply Hid.
Qed.

Lemma reconcile_unknown_reference_witness :
  (forall r, r ∈ db examples.ann_sent -> call_sid r <> Some "nonexistent-ref") /\
  (forall r, r ∈ db examples.ann_sent -> id r <> 7) /\
  db (snd (handle_call_status_callback sample.clinic (Some "nonexistent-ref") "completed"
             examples.ann_sent)) = db examples.ann_sent /\
  fst (routes.call_status_callback 7 sample.clinic examples.ann_sent)
    = Raise (HTTPException 404 "Reminder with ID 7 not found").
Proof.
  assert (H1 : forall r, r ∈ db examples.ann_sent -> call_sid r <> Some "nonexistent-ref").
  { intros r Hr. vm_compute in Hr. apply list_elem_of_singleton in Hr. subst r. discriminate. }
  assert (H2 : forall r, r ∈ db examples.ann_sent -> id r <> 7).
  { intros r Hr. vm_compute in Hr. apply list_elem_of_singleton in Hr. subst r. discriminate. }
  split; [exact H1|]. split; [exact H2|].
  destruct (reconcile_unknown_reference sample.clinic (Some "nonexistent-ref") "completed" 7
              examples.ann_sent H1 H2) as [-> ->].
  split; reflexivity.
Defined.

(** C6, as the claim states it, fails at the endpoint: with no reminder
    stored, so that no reference matches one, the status webhook for
    reminder 1 surfaces an HTTP 404 to its caller. *)
Lemma status_webhook_surfaces_404 :
  (forall sid, first_index (call_sid_is sid) (db empty_world) = None) /\
  routes.call_status_callback 1 sample.clinic empty_world =
    (Raise (HTTPException 404 "Reminder with ID 1 not found"), empty_world).
Proof. split; [intros sid|]; vm_compute; reflexivity. Qed.

(** ** Placing a call *)

Section placing.
Context {rt : PyRuntime}.

Lemma make_reminder_call_eq self w h r :
  db w !! h = Some r ->
  _make_reminder_call self h w =
    match placement self r with
    | (Ok sid, lines) =>
        (Ok tt,
         stored w (<[h := with_status sent (utc w) (with_call_sid (Some sid) (utc w) r)]> (db w))
           (lines ++
            [Log INFO "Made reminder call to {reminder.phone_number} for reminder {reminder.id}"
               [FStr (models.phone_number r); FInt (id r)]]))
    | (Raise e, lines) =>
        (Ok tt,
         stored w (<[h := with_status failed (utc w) r]> (db w))
           (lines ++ [Log ERROR "Error making reminder call: {str(e)}" [FExn e]]))
    end.
Proof.
  intros Hr.
  assert (Hlt : (h < length (db w))%nat) by (eapply lookup_lt_Some; eauto).
  unfold placement, callback_url, status_callback_url.
  destruct (get_appointment_reminder _ _ _ _) as [text|e] eqn:Hg.
  - destruct (client (twilio_service self)) as [c|] eqn:Hc.
    + destruct (calls_create c _ _ _ _ _) as [sid|e] eqn:Hp;
        unfold _make_reminder_call, make_call; py_unfold;
        repeat (first [rewrite Hr | rewrite Hg | rewrite Hc | rewrite Hp]; simpl);
        py_read; rewrite ?list_insert_insert_eq; by rewrite <- app_assoc.
    + unfold _make_reminder_call, make_call. py_unfold.
      by repeat (first [rewrite Hr | rewrite Hg | rewrite Hc]; simpl).
  - unfold _make_reminder_call, make_call. py_unfold.
    by repeat (first [rewrite Hr | rewrite Hg]; simpl).
Qed.

Lemma make_reminder_call_returns self w h r :
  db w !! h = Some r -> fst (_make_reminder_call self h w) = Ok tt.
Proof.
  intros Hr. rewrite (make_reminder_call_eq self w h r Hr).
  by destruct (placement self r) as [[sid|e] lines].
Qed.

Lemma make_reminder_call_dangling self w h :
  db w !! h = None -> snd (_make_reminder_call self h w) = w.
Proof.
  intros Hr. unfold _make_reminder_call. py_unfold.
  by repeat (rewrite Hr; simpl).
Qed.

(** ** Creating a reminder *)

Lemma next_id_fresh (l : Session) r : r ∈ l -> id r < next_id l.
Proof.
  unfold next_id. induction l as [|a l IH]; intros Hr.
  - by apply elem_of_nil in Hr.
  - rewrite fmap_cons. cbn [foldr].
    apply elem_of_cons in Hr as [->|Hr]; [lia|].
    specialize (IH Hr). lia.
Qed.

Lemma create_appointment_reminder_eq self phone date name custom w :
  create_appointment_reminder self phone date name custom w =
    match fromisoformat date with
    | Ok instant =>
        (Ok (next_id (db w)),
         stored w
           (db w ++
            [{| id := next_id (db w); patient_name := name; models.phone_number := phone;
                appointment_date := instant; message := custom; status := scheduled;
                call_sid := None; created_at := utc w; updated_at := utc w |}])
           [Log INFO "Created appointment reminder for {patient_name} on {appointment_date}"
              [FStr name; FStr date]])
    | Raise e =>
        (Raise e,
         stored w (db w)
           [Log ERROR "Error creating appointment reminder: {str(e)}" [FExn e]])
    end.
Proof.
  unfold create_appointment_reminder, new_AppointmentReminder. py_unfold.
  destruct (fromisoformat date) as [instant|e]; simpl; [|done].
  by rewrite list_lookup_middle.
Qed.

(** ** Scheduling *)

Lemma schedule_reminder_call_unknown self reminder_id w :
  first_index (id_is reminder_id) (db w) = None ->
  schedule_reminder_call self reminder_id w =
    (Ok tt, stored w (db w)
              [Log ERROR "Reminder with ID {reminder_id} not found" [FInt reminder_id]]).
Proof.
  intros E. unfold schedule_reminder_call. py_unfold. by rewrite E.
Qed.

Lemma schedule_reminder_call_overflow self reminder_id w h r e :
  first_index (id_is reminder_id) (db w) = Some h ->
  db w !! h = Some r ->
  datetime_sub_hours (appointment_date r) 24 = Raise e ->
  schedule_reminder_call self reminder_id w =
    (Ok tt, stored w (db w)
              [Log ERROR "Error scheduling reminder call: {str(e)}" [FExn e]]).
Proof.
  intros E Hr Hsub. unfold schedule_reminder_call. py_unfold.
  rewrite E, Hr. simpl. by rewrite Hsub.
Qed.

Lemma schedule_reminder_call_eq self reminder_id w h r call_time :
  first_index (id_is reminder_id) (db w) = Some h ->
  db w !! h = Some r ->
  datetime_sub_hours (appointment_date r) 24 = Ok call_time ->
  schedule_reminder_call self reminder_id w =
    if call_time <? utc w then _make_reminder_call self h w
    else (Ok tt, stored w (db w)
                   [Log INFO "Would schedule call for {call_time} for reminder {reminder_id}"
                      [FTime call_time; FInt reminder_id]]).
Proof.
  intros E Hr Hsub.
  pose proof (make_reminder_call_returns self w h r Hr) as Hok.
  unfold schedule_reminder_call.
  unfold try_except at 1. unfold bind at 1. unfold query_filter_first. rewrite E.
  unfold bind at 1. unfold getattr. rewrite Hr.
  unfold bind at 1. unfold lift. rewrite Hsub.
  unfold bind at 1. unfold utcnow.
  destruct (call_time <? utc w).
  - destruct (_make_reminder_call self h w) as [res w']. simpl in Hok. by subst res.
  - reflexivity.
Qed.

End placing.

(** ** Recording the callee's answer *)

Lemma handle_appointment_confirmation_unknown self reminder_id (yes : bool) w :
  first_index (id_is reminder_id) (db w) = None ->
  appointment_service.handle_appointment_confirmation self reminder_id yes w =
    (Ok tt, stored w (db w)
              [Log WARNING "No reminder found with ID {reminder_id}" [FInt reminder_id]]).
Proof.
  intros E. unfold appointment_service.handle_appointment_confirmation. py_unfold. by rewrite E.
Qed.

Lemma handle_appointment_confirmation_known self reminder_id (yes : bool) w h r :
  first_index (id_is reminder_id) (db w) = Some h ->
  db w !! h = Some r ->
  let s := if yes then confirmed else rescheduled in
  appointment_service.handle_appointment_confirmation self reminder_id yes w =
    (Ok tt, stored w (<[h := with_status s (utc w) r]> (db w))
              [Log INFO "Updated status for reminder {reminder.id} to {reminder.status}"
                 [FInt (id r); FStatus s]]).
Proof.
  intros E Hr s. subst s.
  assert (Hlt : (h < length (db w))%nat) by (eapply lookup_lt_Some; eauto).
  unfold appointment_service.handle_appointment_confirmation. py_unfold. rewrite E.
  destruct yes; rewrite Hr; simpl; py_read; reflexivity.
Qed.

(** ** How the table changes *)

Lemma reconciled_evolves sid kind now (l : Session) :
  evolves l (reconciled sid kind now l).
Proof.
  unfold reconciled.
  destruct (first_index (call_sid_is sid) l) as [h|]; [|constructor].
  destruct (l !! h) as [r|] eqn:Hr; [|constructor].
  unfold callback_status.
  destruct (decide (kind = "completed")); [by eapply evolves_status|].
  destruct (decide (kind = "failed" \/ kind = "busy" \/ kind = "no-answer"));
    [by eapply evolves_status|].
  rewrite with_status_same, list_insert_id by done. constructor.
Qed.

Section evolution.
Context {rt : PyRuntime}.

Lemma make_reminder_call_evolves self h w :
  evolves (db w) (db (snd (_make_reminder_call self h w))).
Proof.
  destruct (db w !! h) as [r|] eqn:Hr.
  - rewrite (make_reminder_call_eq self w h r Hr).
    destruct (placement self r) as [[sid|e] lines]; simpl.
    + by eapply evolves_placed.
    + by eapply evolves_status.
  - rewrite make_reminder_call_dangling by done. constructor.
Qed.

Lemma perform_evolves self op w :
  evolves (db w) (db (snd (perform self op w))).
Proof.
  destruct op as [phone date name custom|rid|h|sid kind|rid yes|rid]; simpl.
  - unfold void, bind. rewrite create_appointment_reminder_eq.
    destruct (fromisoformat date) as [instant|e]; simpl; [|constructor].
    by apply evolves_add.
  - destruct (first_index (id_is rid) (db w)) as [h|] eqn:E.
    + destruct (first_index_Some _ _ _ E) as (r & Hr & _).
      destruct (datetime_sub_hours (appointment_date r) 24) as [t|e] eqn:Hsub.
      * rewrite (schedule_reminder_call_eq self rid w h r t E Hr Hsub).
        destruct (t <? utc w); [apply make_reminder_call_evolves | constructor].
      * rewrite (schedule_reminder_call_overflow self rid w h r e E Hr Hsub). constructor.
    + rewrite schedule_reminder_call_unknown by done. constructor.
  - apply make_reminder_call_evolves.
  - destruct (handle_call_status_callback_reconciled self sid kind w) as [_ ->].
    apply reconciled_evolves.
  - destruct (first_index (id_is rid) (db w)) as [h|] eqn:E.
    + destruct (first_index_Some _ _ _ E) as (r & Hr & _).
      rewrite (handle_appointment_confirmation_known self rid yes w h r E Hr). simpl.
      eapply evolves_status; [done|]. by destruct yes.
    + rewrite handle_appointment_confirmation_unknown by done. constructor.
  - unfold void, bind.
    destruct (first_index (id_is rid) (db w)) as [h|] eqn:E.
    + destruct (first_index_Some _ _ _ E) as (r & Hr & _).
      rewrite (call_status_callback_known_id rid self w h r E Hr). simpl.
      destruct (handle_call_status_callback_reconciled self (call_sid r) "completed" w)
        as [_ ->].
      apply reconciled_evolves.
    + rewrite call_status_callback_unknown_id by done. constructor.
Qed.

Lemma step_evolves self w e : evolves (db w) (db (step self w e)).
Proof. unfold step. apply (perform_evolves self (snd e) (at_time (fst e) w)). Qed.

End evolution.

(** A row stays at its position, keeps its key, and does not return to
    Scheduled. *)
Lemma evolves_lookup (l l' : Session) h r :
  evolves l l' -> l !! h = Some r ->
  exists r', l' !! h = Some r' /\ id r' = id r /\
             (status r <> scheduled -> status r' <> scheduled).
Proof.
  intros Hev Hr.
  assert (Hlt : (h < length l)%nat) by (eapply lookup_lt_Some; eauto).
  destruct Hev as [|r0 Hs Hc|k r0 s now Hk Hs|k r0 sid now Hk].
  - by exists r.
  - exists r. by rewrite lookup_app_l.
  - destruct (decide (k = h)) as [->|Hne].
    + rewrite list_lookup_insert_eq by done. eexists. split; [done|].
      rewrite Hk in Hr. injection Hr as ->. by split.
    + rewrite list_lookup_insert_ne by done. by exists r.
  - destruct (decide (k = h)) as [->|Hne].
    + rewrite list_lookup_insert_eq by done. eexists. split; [done|].
      rewrite Hk in Hr. injection Hr as ->. by split.
    + rewrite list_lookup_insert_ne by done. by exists r.
Qed.


(** ** Invariants of the lifecycle *)

Section invariants.
Context {rt : PyRuntime}.

Lemma run_lookup self es w h r :
  db w !! h = Some r ->
  exists r', db (run self es w) !! h = Some r' /\ id r' = id r /\
             (status r <> scheduled -> status r' <> scheduled).
Proof.
  revert w r. induction es as [|e es IH]; intros w r Hr; simpl.
  - by exists r.
  - destruct (evolves_lookup _ _ h r (step_evolves self w e) Hr) as (r1 & Hr1 & Hid1 & Hs1).
    destruct (IH _ _ Hr1) as (r2 & Hr2 & Hid2 & Hs2).
    exists r2. split; [done|]. split; [congruence|]. auto.
Qed.


Lemma run_app self es es' w : run self (es ++ es') w = run self es' (run self es w).
Proof. apply fold_left_app. Qed.

(** C1, as the code has it: every reminder stored at any point of a
    sequence of operations keeps its place and its id through whatever
    follows and, once it has left Scheduled, never returns to it. The
    reconciler does not guard terminal statuses: for the reminder it
    matches, the first that carries the reference of the event, a
    Scheduled reminder matched by the missing reference included, it sets
    the status from the event kind alone, Sent for completed and Failed for
    failed, busy and no-answer, whatever the status was, and leaves every
    other reminder as it is; so when two such events arrive for the same
    reference the later one decides the status. *)
Theorem never_back_to_scheduled_and_last_event_wins self w :
  (forall es es' h r,
     db (run self es w) !! h = Some r ->
     exists r', db (run self (es ++ es') w) !! h = Some r' /\ id r' = id r /\
                (status r <> scheduled -> status r' <> scheduled)) /\
  (forall sid k1 k2 now1 now2 h r,
     first_index (call_sid_is sid) (db w) = Some h ->
     db w !! h = Some r ->
     k1 = "completed" \/ k1 = "failed" \/ k1 = "busy" \/ k1 = "no-answer" ->
     k2 = "completed" \/ k2 = "failed" \/ k2 = "busy" \/ k2 = "no-answer" ->
     let s1 := if decide (k1 = "completed") then sent else failed in
     let s2 := if decide (k2 = "completed") then sent else failed in
     db (run self [(now1, CallStatus sid k1)] w) = <[h := with_status s1 now1 r]> (db w) /\
     db (run self [(now1, CallStatus sid k1); (now2, CallStatus sid k2)] w) =
       <[h := with_status s2 now2 (with_status s1 now1 r)]> (db w)).
Proof.
  split.
  - intros es es' h r Hr. rewrite run_app.
    destruct (run_lookup self es' (run self es w) h r Hr) as (r' & Hr' & Hid & Hs).
    by exists r'.
  - intros sid k1 k2 now1 now2 h r E Hr Hk1 Hk2 s1 s2.
    assert (Hlt : (h < length (db w))%nat) by (eapply lookup_lt_Some; eauto).
    assert (Hone : db (run self [(now1, CallStatus sid k1)] w)
                   = <[h := with_status s1 now1 r]> (db w)).
    { unfold run, fold_left, step. cbn [fst snd perform].
      rewrite (handle_call_status_callback_matched self sid k1 (at_time now1 w) h r E Hr).
      cbn [snd db stored at_time utc]. by rewrite (callback_status_four k1). }
    split; [exact Hone|].
    change [(now1, CallStatus sid k1); (now2, CallStatus sid k2)]
      with ([(now1, CallStatus sid k1)] ++ [(now2, CallStatus sid k2)]).
    rewrite run_app.
    set (w1 := run self [(now1, CallStatus sid k1)] w) in *.
    assert (E1 : first_index (call_sid_is sid) (db (at_time now2 w1)) = Some h).
    { cbn [db at_time]. rewrite Hone. by rewrite (first_index_insert _ (db w) h r). }
    assert (Hr1 : db (at_time now2 w1) !! h = Some (with_status s1 now1 r)).
    { cbn [db at_time]. rewrite Hone. by apply list_lookup_insert_eq. }
    unfold run, fold_left, step. cbn [fst snd perform].
    rewrite (handle_call_status_callback_matched self sid k2 (at_time now2 w1) h _ E1 Hr1).
    cbn [snd db stored at_time utc]. rewrite Hone, list_insert_insert_eq.
    by rewrite (callback_status_four k2).
Qed.


End invariants.

Lemma never_back_to_scheduled_and_last_event_wins_witness :
  (status <$> db examples.ann_sent !! 0%nat) = Some sent /\
  (exists r', db (run (H := sample.iso_runtime) sample.clinic
                    [(examples.appointment, Confirmation 1 true);
                     (examples.appointment + 1, ScheduleReminderCall 1)]
                    examples.ann_sent) !! 0%nat = Some r' /\
              id r' = 1 /\ status r' <> scheduled) /\
  first_index (call_sid_is None) (db examples.ann_created) = Some 0%nat /\
  (status <$> db examples.ann_created !! 0%nat) = Some scheduled /\
  (status <$> db (run (H := sample.iso_runtime) sample.clinic
                    [(examples.appointment, CallStatus None "completed")]
                    examples.ann_created) !! 0%nat) = Some sent /\
  first_index (call_sid_is examples.ann_sid) (db examples.ann_sent) = Some 0%nat /\
  (status <$> db (run (H := sample.iso_runtime) sample.clinic
                    [(examples.appointment, CallStatus examples.ann_sid "completed");
                     (examples.appointment + 1, CallStatus examples.ann_sid "failed")]
                    examples.ann_sent) !! 0%nat) = Some failed.
Proof.
  pose (ann := {| id := 1; patient_name := "Ann"; models.phone_number := "+15550123";
                  appointment_date := examples.appointment; message := None;
                  status := sent; call_sid := examples.ann_sid;
                  created_at := 1893060000000000; updated_at := 1893405660000000 |}).
  pose (ann0 := {| id := 1; patient_name := "Ann"; models.phone_number := "+15550123";
                   appointment_date := examples.appointment; message := None;
                   status := scheduled; call_sid := None;
                   created_at := 1893060000000000; updated_at := 1893060000000000 |}).
  assert (Hann : db examples.ann_sent !! 0%nat = Some ann) by (vm_compute; reflexivity).
  assert (Hann0 : db examples.ann_created !! 0%nat = Some ann0) by (vm_compute; reflexivity).
  assert (E : first_index (call_sid_is examples.ann_sid) (db examples.ann_sent) = Some 0%nat)
    by (vm_compute; reflexivity).
  assert (E0 : first_index (call_sid_is None) (db examples.ann_created) = Some 0%nat)
    by (vm_compute; reflexivity).
  destruct (never_back_to_scheduled_and_last_event_wins (rt := sample.iso_runtime)
              sample.clinic examples.ann_sent) as [Hkeep Hlast].
  destruct (never_back_to_scheduled_and_last_event_wins (rt := sample.iso_runtime)
              sample.clinic examples.ann_created) as [_ Hnull].
  split; [by rewrite Hann|]. split.
  { destruct (Hkeep [] [(examples.appointment, Confirmation 1 true);
                        (examples.appointment + 1, ScheduleReminderCall 1)] 0%nat ann Hann)
      as (r' & Hr' & Hid & Hs).
    exists r'. split; [exact Hr'|]. split; [exact Hid|]. apply Hs. discriminate. }
  split; [exact E0|]. split; [by rewrite Hann0|]. split.
  { destruct (Hnull None "completed" "completed" examples.appointment examples.appointment
                0%nat ann0 E0 Hann0) as [Hone _]; [by left | by left |].
    etrans; [exact (f_equal (fun l => status <$> l !! 0%nat) Hone)|].
    vm_compute. reflexivity. }
  split; [exact E|].
  destruct (Hlast examples.ann_sid "completed" "failed" examples.appointment
              (examples.appointment + 1) 0%nat ann E Hann) as [_ Htwo];
    [by left | by right; left |].
  etrans; [exact (f_equal (fun l => status <$> l !! 0%nat) Htwo)|].
  vm_compute. reflexivity.
Defined.

(** C1, as the claim states it, fails: the completed event moves Ann's
    reminder out of the terminal status Confirmed into Sent, which is no
    edge of the graph; and when failed arrives before completed for her
    call the reminder ends Sent, so the first terminal transition did not
    win. *)
Lemma completed_leaves_terminal_status :
  status <$> db examples.ann_confirmed !! 0%nat = Some confirmed /\
  terminal confirmed = true /\
  status <$> db (run (H := sample.iso_runtime) sample.clinic
                   [(examples.appointment, CallStatus examples.ann_sid "completed")]
                   examples.ann_confirmed) !! 0%nat = Some sent /\
  ~ allowed confirmed sent /\
  status <$> db examples.ann_failed !! 0%nat = Some failed /\
  status <$> db (run (H := sample.iso_runtime) sample.clinic
                   [(examples.appointment, CallStatus examples.ann_sid "completed")]
                   examples.ann_failed) !! 0%nat = Some sent.
Proof.
  repeat split; try (vm_compute; reflexivity).
  intros [Heq|Hedge]; [discriminate Heq | discriminate Hedge].
Qed.



(** ** Placing, creating, scheduling: the claims *)

Section calls.
Context {rt : PyRuntime}.

(** The reference [placement] reports is the one the gateway client
    returned. *)
Lemma placement_reference self r sid :
  fst (placement self r) = Ok sid ->
  exists c, client (twilio_service self) = Some c /\
    calls_create c (models.phone_number r)
      (twilio_service.phone_number (twilio_service self))
      (callback_url self r) (Some (status_callback_url self r))
      ["initiated"; "ringing"; "answered"; "completed"] = Ok sid.
Proof.
  unfold placement.
  destruct (get_appointment_reminder _ _ _ _); [|discriminate].
  destruct (client (twilio_service self)) as [c|]; [|discriminate].
  destruct (calls_create c _ _ _ _ _) as [s|e] eqn:Hp; [|discriminate].
  simpl. intros [= ->]. by exists c.
Qed.

(** C3: a call attempt on a Scheduled reminder returns normally. When the
    collaborators answer with a reference, the one the gateway client
    returned, the reminder becomes Sent and stores exactly that reference;
    when script generation or call placement raises, the reminder becomes
    Failed, keeps its reference column as it was, and the reason is
    recorded as the last log line. No other column than [updated_at], and
    no other row, changes. *)
Theorem attempt_call_outcome self w h r :
  db w !! h = Some r ->
  status r = scheduled ->
  exists w',
    _make_reminder_call self h w = (Ok tt, w') /\
    match fst (placement self r) with
    | Ok sid =>
        (exists c, client (twilio_service self) = Some c /\
           calls_create c (models.phone_number r)
             (twilio_service.phone_number (twilio_service self))
             (callback_url self r) (Some (status_callback_url self r))
             ["initiated"; "ringing"; "answered"; "completed"] = Ok sid) /\
        db w' = <[h := {| id := id r; patient_name := patient_name r;
                          models.phone_number := models.phone_number r;
                          appointment_date := appointment_date r; message := message r;
                          status := sent; call_sid := Some sid;
                          created_at := created_at r; updated_at := utc w |}]> (db w)
    | Raise e =>
        db w' = <[h := {| id := id r; patient_name := patient_name r;
                          models.phone_number := models.phone_number r;
                          appointment_date := appointment_date r; message := message r;
                          status := failed; call_sid := call_sid r;
                          created_at := created_at r; updated_at := utc w |}]> (db w) /\
        last (records w') = Some (Log ERROR "Error making reminder call: {str(e)}" [FExn e])
    end.
Proof.
  intros Hr Hs. rewrite (make_reminder_call_eq self w h r Hr).
  pose proof (placement_reference self r) as Href.
  destruct (placement self r) as [[sid|e] lines]; simpl; eexists; (split; [reflexivity|]).
  - split; [by apply Href|].
    simpl. unfold with_status, with_call_sid. simpl. rewrite Hs.
    by rewrite (decide_False (P := scheduled = sent)).
  - simpl. split.
    + unfold with_status. rewrite Hs. by rewrite (decide_False (P := scheduled = failed)).
    + by rewrite app_assoc, last_snoc.
Qed.

(** C7, as the code has it: creation fails if and only if the appointment
    instant does not parse; it then re-raises the parser's error and the
    table is as before. For every other input, whatever the phone number,
    it appends a Scheduled reminder under a key no stored reminder has and
    returns that key. *)
Theorem create_fails_on_unparseable_instant_only self phone date name custom w :
  match fromisoformat date with
  | Raise e =>
      create_appointment_reminder self phone date name custom w =
        (Raise e, stored w (db w)
                    [Log ERROR "Error creating appointment reminder: {str(e)}" [FExn e]])
  | Ok instant =>
      create_appointment_reminder self phone date name custom w =
        (Ok (next_id (db w)),
         stored w
           (db w ++
            [{| id := next_id (db w); patient_name := name; models.phone_number := phone;
                appointment_date := instant; message := custom; status := scheduled;
                call_sid := None; created_at := utc w; updated_at := utc w |}])
           [Log INFO "Created appointment reminder for {patient_name} on {appointment_date}"
              [FStr name; FStr date]]) /\
      forall r, r ∈ db w -> id r <> next_id (db w)
  end.
Proof.
  rewrite create_appointment_reminder_eq.
  destruct (fromisoformat date) as [instant|e]; [|done].
  split; [done|]. intros r Hr. pose proof (next_id_fresh _ _ Hr). lia.
Qed.

(** C8, as the code has it: for a stored reminder whose appointment lies at
    least 24 hours after the earliest representable instant, scheduling
    places the call at once when the clock is strictly past 24 hours before
    the appointment; otherwise, the instant 24 hours before the appointment
    itself included, it places nothing and logs that instant as the time to
    retry. An appointment 48 hours out is deferred to 24 hours before it,
    an appointment 2 hours out is called at once. *)
Theorem schedule_places_strictly_after_lead_time self reminder_id w h r :
  first_index (id_is reminder_id) (db w) = Some h ->
  db w !! h = Some r ->
  datetime_min + timedelta_hours 24 <= appointment_date r <= datetime_max ->
  let call_time := appointment_date r - timedelta_hours 24 in
  schedule_reminder_call self reminder_id w =
    match evaluateSchedulingEligibility (appointment_date r) (utc w) with
    | placeNow => _make_reminder_call self h w
    | deferUntil instant =>
        (Ok tt, stored w (db w)
                  [Log INFO "Would schedule call for {call_time} for reminder {reminder_id}"
                     [FTime instant; FInt reminder_id]])
    end /\
  (call_time < utc w -> evaluateSchedulingEligibility (appointment_date r) (utc w) = placeNow) /\
  (utc w <= call_time ->
   evaluateSchedulingEligibility (appointment_date r) (utc w) = deferUntil call_time) /\
  (utc w = appointment_date r - timedelta_hours 48 ->
   evaluateSchedulingEligibility (appointment_date r) (utc w) = deferUntil call_time) /\
  (utc w = appointment_date r - timedelta_hours 2 ->
   evaluateSchedulingEligibility (appointment_date r) (utc w) = placeNow).
Proof.
  intros E Hr Hrange call_time.
  assert (Hsub : datetime_sub_hours (appointment_date r) 24 = Ok call_time).
  { unfold datetime_sub_hours. fold call_time.
    assert (H24 : timedelta_hours 24 = 86400000000) by reflexivity.
    replace (call_time <? datetime_min) with false
      by (symmetry; apply Z.ltb_ge; subst call_time; lia).
    replace (datetime_max <? call_time) with false
      by (symmetry; apply Z.ltb_ge; subst call_time; lia).
    reflexivity. }
  assert (Hlt : call_time < utc w ->
                evaluateSchedulingEligibility (appointment_date r) (utc w) = placeNow).
  { intros Hl. unfold evaluateSchedulingEligibility. fold call_time.
    apply Z.ltb_lt in Hl. by rewrite Hl. }
  assert (Hge : utc w <= call_time ->
                evaluateSchedulingEligibility (appointment_date r) (utc w)
                = deferUntil call_time).
  { intros Hg. unfold evaluateSchedulingEligibility. fold call_time.
    apply Z.ltb_ge in Hg. by rewrite Hg. }
  assert (H24 : timedelta_hours 24 = 86400000000) by reflexivity.
  assert (H48 : timedelta_hours 48 = 172800000000) by reflexivity.
  assert (H2 : timedelta_hours 2 = 7200000000) by reflexivity.
  repeat split; try done.
  - rewrite (schedule_reminder_call_eq self reminder_id w h r call_time E Hr Hsub).
    unfold evaluateSchedulingEligibility. fold call_time.
    by destruct (call_time <? utc w).
  - intros Hnow. apply Hge. subst call_time. lia.
  - intros Hnow. apply Hlt. subst call_time. lia.
Qed.

End calls.

Lemma attempt_call_outcome_witness :
  let w := at_time (examples.appointment - timedelta_hours 2) examples.ann_created in
  status <$> db w !! 0%nat = Some scheduled /\
  exists w',
    _make_reminder_call (H := sample.iso_runtime) sample.clinic 0%nat w = (Ok tt, w') /\
    status <$> db w' !! 0%nat = Some sent /\
    call_sid <$> db w' !! 0%nat = Some examples.ann_sid.
Proof.
  intros w. split; [vm_compute; reflexivity|].
  set (r := {| id := 1; patient_name := "Ann"; models.phone_number := "+15550123";
               appointment_date := examples.appointment; message := None;
               status := scheduled; call_sid := None;
               created_at := 1893060000000000; updated_at := 1893060000000000 |}).
  assert (Hp : fst (placement (H := sample.iso_runtime) sample.clinic r)
               = Ok "CAhttp://localhost:5000/call-status-callback/1")
    by (vm_compute; reflexivity).
  destruct (attempt_call_outcome (rt := sample.iso_runtime) sample.clinic w 0%nat r)
    as (w' & Hcall & Hdb).
  - vm_compute. reflexivity.
  - reflexivity.
  - exists w'. split; [exact Hcall|].
    rewrite Hp in Hdb. destruct Hdb as [_ Hdb]. rewrite Hdb. split; reflexivity.
Defined.

Lemma create_fails_on_unparseable_instant_only_witness :
  fst (create_appointment_reminder (H := sample.iso_runtime) sample.clinic
         "+15550123" "next tuesday" "Ann" None examples.ann_sent)
    = Raise (ValueError "Invalid isoformat string: 'next tuesday'") /\
  db (snd (create_appointment_reminder (H := sample.iso_runtime) sample.clinic
             "+15550123" "next tuesday" "Ann" None examples.ann_sent))
    = db examples.ann_sent /\
  fst (create_appointment_reminder (H := sample.iso_runtime) sample.clinic
         "+15550123" "2030-01-02T09:30:00" "Bob" None examples.ann_sent) = Ok 2.
Proof.
  pose proof (create_fails_on_unparseable_instant_only (rt := sample.iso_runtime)
                sample.clinic "+15550123" "next tuesday" "Ann" None examples.ann_sent) as Hbad.
  pose proof (create_fails_on_unparseable_instant_only (rt := sample.iso_runtime)
                sample.clinic "+15550123" "2030-01-02T09:30:00" "Bob" None examples.ann_sent)
    as Hgood.
  assert (Hp : fromisoformat (PyRuntime := sample.iso_runtime) "next tuesday"
               = Raise (ValueError "Invalid isoformat string: 'next tuesday'"))
    by (vm_compute; reflexivity).
  assert (Hq : fromisoformat (PyRuntime := sample.iso_runtime) "2030-01-02T09:30:00"
               = Ok 1893576600000000)
    by (vm_compute; reflexivity).
  rewrite Hp in Hbad. rewrite Hq in Hgood. destruct Hgood as [Hgood _].
  rewrite Hbad, Hgood. repeat split.
Defined.

(** C7, as the claim states it, fails: a phone number that does not pass
    normalization is accepted; with a parseable instant the reminder is
    created and stored. *)
Lemma unnormalizable_phone_is_accepted :
  phone_normalizable "not-a-phone" = false /\
  fst (create_appointment_reminder (H := sample.iso_runtime) sample.clinic
         "not-a-phone" "2030-01-01T10:00:00" "Ann" None empty_world) = Ok 1 /\
  models.phone_number <$>
    db (snd (create_appointment_reminder (H := sample.iso_runtime) sample.clinic
               "not-a-phone" "2030-01-01T10:00:00" "Ann" None empty_world)) !! 0%nat
    = Some "not-a-phone".
Proof. vm_compute. repeat split. Qed.

Lemma schedule_places_strictly_after_lead_time_witness :
  let w := at_time (examples.appointment - timedelta_hours 48) examples.ann_created in
  first_index (id_is 1) (db w) = Some 0%nat /\
  datetime_min + timedelta_hours 24 <= examples.appointment <= datetime_max /\
  schedule_reminder_call (H := sample.iso_runtime) sample.clinic 1 w =
    (Ok tt, stored w (db w)
              [Log INFO "Would schedule call for {call_time} for reminder {reminder_id}"
                 [FTime (examples.appointment - timedelta_hours 24); FInt 1]]).
Proof.
  intros w.
  assert (Hrange : datetime_min + timedelta_hours 24 <= examples.appointment <= datetime_max)
    by (vm_compute; split; discriminate).
  split; [vm_compute; reflexivity|]. split; [exact Hrange|].
  destruct (schedule_places_strictly_after_lead_time (rt := sample.iso_runtime)
              sample.clinic 1 w 0%nat
              {| id := 1; patient_name := "Ann"; models.phone_number := "+15550123";
                 appointment_date := examples.appointment; message := None;
                 status := scheduled; call_sid := None;
                 created_at := 1893060000000000; updated_at := 1893060000000000 |})
    as (Heq & _).
  - vm_compute. reflexivity.
  - vm_compute. reflexivity.
  - exact Hrange.
  - rewrite Heq. reflexivity.
Defined.

(** C8, as the claim states it, fails on the boundary: when the clock reads
    exactly 24 hours before Ann's appointment the policy as worded says to
    place the call, and scheduling places none: the reminder stays
    Scheduled and the instant is only logged. *)
Lemma exactly_24_hours_ahead_is_deferred :
  let now := examples.appointment - timedelta_hours 24 in
  let w := at_time now examples.ann_created in
  policy_decision examples.appointment now = placeNow /\
  schedule_reminder_call (H := sample.iso_runtime) sample.clinic 1 w =
    (Ok tt, stored w (db w)
              [Log INFO "Would schedule call for {call_time} for reminder {reminder_id}"
                 [FTime now; FInt 1]]) /\
  status <$> db (snd (schedule_reminder_call (H := sample.iso_runtime) sample.clinic 1 w))
               !! 0%nat = Some scheduled /\
  status <$> db (snd (_make_reminder_call (H := sample.iso_runtime) sample.clinic 0%nat w))
               !! 0%nat = Some sent.
Proof. vm_compute. repeat split. Qed.

(** ** The confirmation dialog *)

Import gateway.





(** ** The lifecycle on the example worlds *)

(** When the script collaborator is down no call is placed: Ann's reminder
    is Failed without reference and the log ends with the reason. *)
Example script_failure_marks_failed :
  let w := snd (_make_reminder_call (H := sample.iso_runtime) sample.mute 0%nat
                  (at_time (examples.appointment - timedelta_hours 2) examples.ann_created)) in
  status <$> db w !! 0%nat = Some failed /\
  call_sid <$> db w !! 0%nat = Some None /\
  last (records w) = Some (Log ERROR "Error making reminder call: {str(e)}"
                             [FExn (CollaboratorError "Connection error.")]).
Proof. vm_compute. repeat split. Qed.

(** When the gateway refuses the call, [make_call] logs its error and the
    reminder service logs it again after marking the reminder Failed. *)
Example gateway_refusal_marks_failed :
  let w := snd (_make_reminder_call (H := sample.iso_runtime) sample.refused 0%nat
                  (at_time (examples.appointment - timedelta_hours 2) examples.ann_created)) in
  status <$> db w !! 0%nat = Some failed /\
  drop 1 (records w) =
    [Log ERROR "Error making call: {str(e)}"
       [FExn (CollaboratorError "Unable to create record")];
     Log ERROR "Error making reminder call: {str(e)}"
       [FExn (CollaboratorError "Unable to create record")]].
Proof. vm_compute. repeat split. Qed.

(** Key 1 and key 2 are answered without a further prompt. *)
Example confirm_and_transfer_lines :
  play (twilio_service.handle_appointment_confirmation (sample.line None)
          {[ "Digits" := "1" ]}) [] =
    [Spoke "Thank you for confirming your appointment. We look forward to seeing you. Goodbye!";
     HungUp] /\
  play (twilio_service.handle_appointment_confirmation (sample.line None)
          {[ "Digits" := "2" ]}) [] =
    [Spoke "I'll connect you with our office staff. Please hold.";
     Bridged "+11234567890";
     Spoke "The call could not be completed. Please try calling our main office number directly. Goodbye!";
     HungUp].
Proof. vm_compute. repeat split. Qed.

(** The runtime of the examples reads and prints the appointment as Python
    does. *)
Example runtime_on_the_appointment :
  fromisoformat (PyRuntime := sample.iso_runtime) "2030-01-01T10:00:00"
    = Ok examples.appointment /\
  strftime (PyRuntime := sample.iso_runtime) examples.appointment "%A, %B %d at %I:%M %p"
    = "Tuesday, January 01 at 10:00 AM" /\
  fromisoformat (PyRuntime := sample.iso_runtime) "next tuesday"
    = Raise (ValueError "Invalid isoformat string: 'next tuesday'").
Proof. vm_compute. repeat split. Qed.

(** * More of the code *)

Import frames.

(** ** Upcoming reminders *)

#[local] Instance by_date_total : Total by_date.
Proof. intros x y. unfold by_date. lia. Qed.
#[local] Instance by_date_transitive : Transitive by_date.
Proof. intros x y z. unfold by_date. lia. Qed.
#[local] Instance by_date_desc_total : Total by_date_desc.
Proof. intros x y. unfold by_date_desc. lia. Qed.
#[local] Instance by_date_desc_transitive : Transitive by_date_desc.
Proof. intros x y z. unfold by_date_desc. lia. Qed.

(** The first [n] rows of a sorted selection: they are sorted, selected,
    and no later in the order than the selected rows left out. *)
Lemma sorted_selection (p : AppointmentReminder -> Prop) `{forall r, Decision (p r)}
    (R : relation AppointmentReminder) `{forall x y, Decision (R x y)}
    `{!Total R, !Transitive R} (n : nat) (l : Session) :
  let rows := take n (merge_sort R (filter p l)) in
  let rest := drop n (merge_sort R (filter p l)) in
  (length rows <= n)%nat /\
  StronglySorted R rows /\
  (forall r, r ∈ rows -> r ∈ l /\ p r) /\
  rows ++ rest ≡ₚ filter p l /\
  (forall r r', r ∈ rows -> r' ∈ rest -> R r r') /\
  (rest <> [] -> length rows = n).
Proof.
  intros rows rest.
  pose proof (StronglySorted_merge_sort R (filter p l)) as Hsorted.
  pose proof (merge_sort_Permutation R (filter p l)) as Hperm.
  assert (Hsplit : rows ++ rest = merge_sort R (filter p l)) by apply take_drop.
  rewrite <- Hsplit in Hsorted.
  split; [subst rows; rewrite length_take; lia|].
  split; [by eapply StronglySorted_app_1_l|].
  split.
  { intros r Hr. assert (Hin : r ∈ filter p l).
    { rewrite <- Hperm, <- Hsplit. apply elem_of_app. by left. }
    apply list_elem_of_filter in Hin. tauto. }
  split; [by rewrite Hsplit|].
  split; [intros r r' Hr Hr'; by eapply StronglySorted_app_1_elem_of|].
  intros Hrest. subst rows rest. rewrite length_take.
  destruct (decide (n <= length (merge_sort R (filter p l)))%nat) as [Hle|Hgt]; [lia|].
  rewrite drop_ge in Hrest by lia. done.
Qed.

(** X1: the upcoming reminders are read without touching the table or the
    log and never raise. At most [limit] reminders come back, each a
    stored reminder whose appointment is after the clock's reading, in
    order of appointment, earliest first. *)
Theorem upcoming_reminders_sound self limit w :
  exists rows,
    reading.get_upcoming_reminders self limit w = (Ok rows, w) /\
    (length rows <= limit)%nat /\
    (forall r, r ∈ rows -> r ∈ db w /\ utc w < appointment_date r) /\
    StronglySorted by_date rows.
Proof.
  eexists. split; [reflexivity|].
  pose proof (sorted_selection (fun r => utc w < appointment_date r) by_date limit (db w))
    as (Hlen & Hsorted & Hin & _).
  done.
Qed.

(** X2: the upcoming reminders are the earliest ones: together with the
    future reminders left out they make up all stored future reminders, no
    reminder left out is earlier than one returned, and reminders are left
    out only when [limit] reminders were returned. *)
Theorem upcoming_reminders_earliest self limit w :
  exists rows rest,
    reading.get_upcoming_reminders self limit w = (Ok rows, w) /\
    rows ++ rest ≡ₚ filter (fun r => utc w < appointment_date r) (db w) /\
    (forall r r', r ∈ rows -> r' ∈ rest -> appointment_date r <= appointment_date r') /\
    (rest <> [] -> length rows = limit).
Proof.
  eexists. eexists. split; [reflexivity|].
  pose proof (sorted_selection (fun r => utc w < appointment_date r) by_date limit (db w))
    as (_ & _ & _ & Hperm & Hle & Hfull).
  done.
Qed.

(** ** One operation at a time *)

Lemma same_creation_refl r : same_creation r r.
Proof. by repeat split. Qed.

Lemma same_creation_with_status s now r : same_creation r (with_status s now r).
Proof. by repeat split. Qed.

Lemma same_creation_placed sid now r :
  same_creation r (with_status sent now (with_call_sid (Some sid) now r)).
Proof. by repeat split. Qed.

Lemma reconciled_changes sid kind now (l : Session) :
  changes l (reconciled sid kind now l).
Proof.
  unfold reconciled.
  destruct (first_index (call_sid_is sid) l) as [h|]; [|constructor].
  destruct (l !! h) as [r|] eqn:Hr; [|constructor].
  eapply changes_update; [done | apply same_creation_with_status].
Qed.

Section one_operation.
Context {rt : PyRuntime}.

Lemma make_reminder_call_changes self h w :
  changes (db w) (db (snd (_make_reminder_call self h w))).
Proof.
  destruct (db w !! h) as [r|] eqn:Hr.
  - rewrite (make_reminder_call_eq self w h r Hr).
    destruct (placement self r) as [[sid|e] lines]; simpl.
    + eapply changes_update; [done | apply same_creation_placed].
    + eapply changes_update; [done | apply same_creation_with_status].
  - rewrite make_reminder_call_dangling by done. constructor.
Qed.

Lemma schedule_reminder_call_changes self rid w :
  changes (db w) (db (snd (schedule_reminder_call self rid w))).
Proof.
  destruct (first_index (id_is rid) (db w)) as [h|] eqn:E.
  - destruct (first_index_Some _ _ _ E) as (r & Hr & _).
    destruct (datetime_sub_hours (appointment_date r) 24) as [t|e] eqn:Hsub.
    + rewrite (schedule_reminder_call_eq self rid w h r t E Hr Hsub).
      destruct (t <? utc w); [apply make_reminder_call_changes | constructor].
    + rewrite (schedule_reminder_call_overflow self rid w h r e E Hr Hsub). constructor.
  - rewrite schedule_reminder_call_unknown by done. constructor.
Qed.

Lemma perform_changes self op w :
  changes (db w) (db (snd (perform self op w))).
Proof.
  destruct op as [phone date name custom|rid|h|sid kind|rid yes|rid]; simpl.
  - unfold void, bind. rewrite create_appointment_reminder_eq.
    destruct (fromisoformat date) as [instant|e]; simpl; [|constructor].
    by apply changes_insert.
  - apply schedule_reminder_call_changes.
  - apply make_reminder_call_changes.
  - destruct (handle_call_status_callback_reconciled self sid kind w) as [_ ->].
    apply reconciled_changes.
  - destruct (first_index (id_is rid) (db w)) as [h|] eqn:E.
    + destruct (first_index_Some _ _ _ E) as (r & Hr & _).
      rewrite (handle_appointment_confirmation_known self rid yes w h r E Hr). simpl.
      eapply changes_update; [done | apply same_creation_with_status].
    + rewrite handle_appointment_confirmation_unknown by done. constructor.
  - unfold void, bind.
    destruct (first_index (id_is rid) (db w)) as [h|] eqn:E.
    + destruct (first_index_Some _ _ _ E) as (r & Hr & _).
      rewrite (call_status_callback_known_id rid self w h r E Hr). simpl.
      destruct (handle_call_status_callback_reconciled self (call_sid r) "completed" w)
        as [_ ->].
      apply reconciled_changes.
    + rewrite call_status_callback_unknown_id by done. constructor.
Qed.

Lemma step_changes self w e : changes (db w) (db (step self w e)).
Proof. unfold step. apply (perform_changes self (snd e) (at_time (fst e) w)). Qed.

End one_operation.

Lemma changes_keyed (l l' : Session) : changes l l' -> keyed l -> keyed l'.
Proof.
  intros Hch Hkeyed. destruct Hch as [|r Hid|k r r' Hk Hsame]; [done|..].
  - intros h r0 Hr0. apply lookup_snoc_Some in Hr0 as [[Hlt Hr0]|[-> ->]]; [by apply Hkeyed|].
    rewrite Hid. unfold next_id.
    assert (Hmax : forall (l0 : Session) (b : nat),
               (forall h r, l0 !! h = Some r -> id r = Z.of_nat (S (b + h))) ->
               foldr Z.max 0 (id <$> l0) =
               if decide (l0 = []) then 0 else Z.of_nat (b + length l0)).
    { clear. induction l0 as [|a l0 IH]; intros b Hk; [done|].
      rewrite fmap_cons. cbn [foldr]. rewrite decide_False by done.
      rewrite (IH (S b)).
      - pose proof (Hk 0%nat a eq_refl) as Ha.
        destruct (decide (l0 = [])) as [->|Hne]; simpl length; lia.
      - intros h r Hr. rewrite (Hk (S h) r Hr). f_equal. lia. }
    rewrite (Hmax l 0%nat) by (intros h0 r1 Hr1; by apply Hkeyed).
    destruct (decide (l = [])) as [->|Hne]; simpl; lia.
  - intros h r0 Hr0. destruct (decide (k = h)) as [->|Hne].
    + rewrite list_lookup_insert_eq in Hr0 by (eapply lookup_lt_Some; eauto).
      injection Hr0 as <-. destruct Hsame as [-> _]. by apply Hkeyed.
    + rewrite list_lookup_insert_ne in Hr0 by done. by apply Hkeyed.
Qed.

Lemma changes_lookup (l l' : Session) h r :
  changes l l' -> l !! h = Some r -> exists r', l' !! h = Some r' /\ same_creation r r'.
Proof.
  intros Hch Hr.
  assert (Hlt : (h < length l)%nat) by (eapply lookup_lt_Some; eauto).
  destruct Hch as [|r0 Hid|k r0 r' Hk Hsame].
  - exists r. split; [done | apply same_creation_refl].
  - exists r. rewrite lookup_app_l by done. split; [done | apply same_creation_refl].
  - destruct (decide (k = h)) as [->|Hne].
    + rewrite list_lookup_insert_eq by done. exists r'. split; [done|]. congruence.
    + rewrite list_lookup_insert_ne by done. exists r.
      split; [done | apply same_creation_refl].
Qed.

Lemma same_creation_trans r1 r2 r3 :
  same_creation r1 r2 -> same_creation r2 r3 -> same_creation r1 r3.
Proof.
  unfold same_creation. intros (?&?&?&?&?&?) (?&?&?&?&?&?). repeat split; congruence.
Qed.

Section many_operations.
Context {rt : PyRuntime}.

(** X3: in every world reached from the empty table the keys count the
    stored reminders from 1 in the order of their creation: the reminder at
    position [h] has id [h + 1], so no two stored reminders share an id. *)
Theorem reachable_ids_count_from_one self es h r :
  db (run self es empty_world) !! h = Some r -> id r = Z.of_nat (S h).
Proof.
  assert (Hrun : forall es w, keyed (db w) -> keyed (db (run self es w))).
  { clear. induction es as [|e es IH]; intros w Hk; simpl; [done|].
    apply IH. eapply changes_keyed; [apply step_changes | done]. }
  apply (Hrun es empty_world). intros h0 r0 Hr0. done.
Qed.

(** X4: what creation fixed stays fixed: along any sequence of operations
    a stored reminder keeps its position, id, patient name, phone number,
    appointment instant, custom message and creation time. *)
Theorem creation_data_never_changes self es w h r :
  db w !! h = Some r ->
  exists r', db (run self es w) !! h = Some r' /\
    id r' = id r /\ patient_name r' = patient_name r /\
    models.phone_number r' = models.phone_number r /\
    appointment_date r' = appointment_date r /\
    message r' = message r /\ created_at r' = created_at r.
Proof.
  revert w r. induction es as [|e es IH]; intros w r Hr; simpl.
  - exists r. by repeat split.
  - destruct (changes_lookup _ _ h r (step_changes self w e) Hr) as (r1 & Hr1 & Hs1).
    destruct (IH _ _ Hr1) as (r2 & Hr2 & Hs2).
    exists r2. split; [done|]. apply (same_creation_trans r r1 r2 Hs1 Hs2).
Qed.

(** X5: one operation touches at most one stored reminder: apart from one
    position every stored reminder is left exactly as it was, no reminder
    is removed, and at most one is added. *)
Theorem operation_touches_one_reminder self op w :
  exists h,
    (forall j, j <> h -> (j < length (db w))%nat ->
               db (snd (perform self op w)) !! j = db w !! j) /\
    (length (db w) <= length (db (snd (perform self op w))) <= S (length (db w)))%nat.
Proof.
  destruct (perform_changes self op w) as [|r Hid|k r r' Hk Hsame].
  - exists 0%nat. split; [done | lia].
  - exists (length (db w)). split.
    + intros j _ Hlt. by rewrite lookup_app_l.
    + rewrite length_app. simpl. lia.
  - exists k. split.
    + intros j Hne _. by rewrite list_lookup_insert_ne.
    + rewrite length_insert. lia.
Qed.

End many_operations.

(** ** Scheduling through the application *)

Lemma first_index_fresh (l : Session) r :
  id r = next_id l -> first_index (id_is (id r)) (l ++ [r]) = Some (length l).
Proof.
  intros Hid.
  assert (Hold : forall r0, r0 ∈ l -> id_is (id r) r0 = false).
  { intros r0 Hr0. unfold id_is. apply bool_decide_eq_false.
    pose proof (next_id_fresh l r0 Hr0). lia. }
  clear Hid. induction l as [|a l IH]; simpl.
  - unfold id_is. by rewrite bool_decide_eq_true_2.
  - rewrite (Hold a) by apply list_elem_of_here.
    rewrite IH; [done|]. intros r0 Hr0. apply Hold. by apply list_elem_of_further.
Qed.

Lemma datetime_sub_hours_representable d :
  datetime_min + timedelta_hours 24 <= d <= datetime_max ->
  datetime_sub_hours d 24 = Ok (d - timedelta_hours 24).
Proof.
  intros Hrange. unfold datetime_sub_hours.
  assert (H24 : timedelta_hours 24 = 86400000000) by reflexivity.
  replace (d - timedelta_hours 24 <? datetime_min) with false
    by (symmetry; apply Z.ltb_ge; lia).
  replace (datetime_max <? d - timedelta_hours 24) with false
    by (symmetry; apply Z.ltb_ge; lia).
  reflexivity.
Qed.

Section application.
Context {rt : PyRuntime} {tx : PyText}.

(** X6: a request with a parseable instant is answered 200 with the id of
    the reminder it stored, and the background task then schedules exactly
    that reminder. The reminders stored before are as they were. When the
    instant 24 hours before the appointment is no representable datetime,
    as for an appointment in the first 24 hours after [datetime.min], the
    task logs the [OverflowError] and the new reminder stays Scheduled.
    Otherwise the new reminder stays Scheduled when the task runs no later
    than 24 hours before the appointment, and when it runs later a call is
    attempted for it and it is Sent with the reference the gateway
    returned, or Failed. *)
Theorem schedule_reminder_schedules_the_new_reminder self phone date name custom
    now later instant w :
  fromisoformat date = Ok instant ->
  let row := {| id := next_id (db w); patient_name := name; models.phone_number := phone;
                appointment_date := instant; message := custom; status := scheduled;
                call_sid := None; created_at := now; updated_at := now |} in
  exists w',
    app.serve (app.schedule_reminder self phone date name custom) now later w =
      (Ok {| app.status_code := 200;
             app.content := [("message", models_dict.VStr "Reminder scheduled successfully");
                             ("reminder_id", models_dict.VInt (next_id (db w)))] |}, w') /\
    db w' =
      db w ++
      [match datetime_sub_hours instant 24 with
       | Raise _ => row
       | Ok call_time =>
           if call_time <? later then
             match fst (placement self row) with
             | Ok sid => with_status sent later (with_call_sid (Some sid) later row)
             | Raise _ => with_status failed later row
             end
           else row
       end] /\
    (instant - timedelta_hours 24 < datetime_min ->
     db w' = db w ++ [row] /\
     last (records w') =
       Some (Log ERROR "Error scheduling reminder call: {str(e)}"
               [FExn (OverflowError "date value out of range")])) /\
    (datetime_min + timedelta_hours 24 <= instant <= datetime_max ->
     datetime_sub_hours instant 24 = Ok (instant - timedelta_hours 24)).
Proof.
  intros Hparse row.
  unfold app.serve, app.schedule_reminder.
  unfold try_except at 1. unfold bind at 1.
  rewrite create_appointment_reminder_eq, Hparse. cbn [at_time utc db].
  fold row. unfold ret. cbn [app.run_tasks snd].
  set (w1 := at_time later _).
  assert (Hdb1 : db w1 = db w ++ [row]) by reflexivity.
  assert (E : first_index (id_is (next_id (db w))) (db w1) = Some (length (db w))).
  { rewrite Hdb1. apply (first_index_fresh (db w) row). reflexivity. }
  assert (Hr : db w1 !! length (db w) = Some row).
  { rewrite Hdb1. by apply list_lookup_middle. }
  eexists. split; [reflexivity|].
  split; [|split; [|apply datetime_sub_hours_representable]].
  - destruct (datetime_sub_hours instant 24) as [call_time|e] eqn:Hsub.
    + rewrite (schedule_reminder_call_eq self (next_id (db w)) w1 (length (db w)) row
                 call_time E Hr Hsub).
      change (utc w1) with later.
      destruct (call_time <? later); [|exact Hdb1].
      rewrite (make_reminder_call_eq self w1 (length (db w)) row Hr).
      change (utc w1) with later.
      destruct (placement self row) as [[sid|e] lines]; cbn [fst snd db stored];
        rewrite Hdb1, insert_app_r_alt, Nat.sub_diag by lia; reflexivity.
    + rewrite (schedule_reminder_call_overflow self (next_id (db w)) w1 (length (db w)) row
                 e E Hr Hsub).
      exact Hdb1.
  - intros Hlow.
    assert (Hsub : datetime_sub_hours instant 24
                   = Raise (OverflowError "date value out of range")).
    { unfold datetime_sub_hours.
      replace (instant - timedelta_hours 24 <? datetime_min) with true
        by (symmetry; apply Z.ltb_lt; lia).
      reflexivity. }
    rewrite (schedule_reminder_call_overflow self (next_id (db w)) w1 (length (db w)) row
               _ E Hr Hsub).
    split; [exact Hdb1|]. cbn [snd records stored]. apply last_snoc.
Qed.

(** X7: a request whose instant does not parse is answered 500 with the
    parser's message; no reminder is stored and no task is handed over, so
    no call is placed. The only trace is the error line of the service. *)
Theorem schedule_reminder_rejects_unparseable_instant self phone date name custom
    now later e w :
  fromisoformat date = Raise e ->
  app.serve (app.schedule_reminder self phone date name custom) now later w =
    (Raise (HTTPException 500 (str_exn e)),
     stored (at_time now w) (db w)
       [Log ERROR "Error creating appointment reminder: {str(e)}" [FExn e]]).
Proof.
  intros Hparse. unfold app.serve, app.schedule_reminder.
  unfold try_except at 1. unfold bind at 1.
  rewrite create_appointment_reminder_eq, Hparse. reflexivity.
Qed.

End application.

(** ** The endpoints of the API *)

Lemma first_index_le p (l : Session) h r :
  l !! h = Some r -> p r = true ->
  exists h' r', first_index p l = Some h' /\ (h' <= h)%nat /\ l !! h' = Some r' /\ p r' = true.
Proof.
  revert h. induction l as [|a l IH]; intros h Hr Hp; [done|].
  simpl. destruct (p a) eqn:Hpa.
  - exists 0%nat, a. repeat split; [lia | done].
  - destruct h as [|h]; simpl in Hr; [congruence|].
    destruct (IH h Hr Hp) as (h' & r' & -> & Hle & Hr' & Hp').
    exists (S h'), r'. repeat split; [lia | done | done].
Qed.



Section api_endpoints.
Context {rt : PyRuntime} {tx : PyText}.

(** X8: the confirmation endpoint reads neither the key nor the reference
    of the request. When no stored reminder carries the reference
    example_call_sid it answers 404 and changes nothing. Otherwise it
    answers that the appointment is confirmed and hands the id of the first
    reminder with that reference to the service, which sets the first
    reminder with this id to Confirmed: that one row is rewritten, it is
    the reminder found by reference whenever no earlier reminder has its
    id, and every other stored reminder is as it was. The endpoint never
    records a reschedule. *)
Theorem appointment_confirm_always_confirms self w :
  match first_index (call_sid_is (Some "example_call_sid")) (db w) with
  | None =>
      api.appointment_confirm self w =
        (Raise (HTTPException 404 "No reminder found for call SID example_call_sid"), w)
  | Some h =>
      exists r h' r',
        db w !! h = Some r /\
        first_index (id_is (id r)) (db w) = Some h' /\
        db w !! h' = Some r' /\
        api.appointment_confirm self w =
          (Ok [("message", "Appointment confirmed")],
           stored w (<[h' := with_status confirmed (utc w) r']> (db w))
             [Log INFO "Updated status for reminder {reminder.id} to {reminder.status}"
                [FInt (id r'); FStatus confirmed]]) /\
        ((forall j r0, (j < h)%nat -> db w !! j = Some r0 -> id r0 <> id r) -> h' = h)
  end.
Proof.
  destruct (first_index (call_sid_is (Some "example_call_sid")) (db w)) as [h|] eqn:E.
  - destruct (first_index_Some _ _ _ E) as (r & Hr & _).
    destruct (first_index_le (id_is (id r)) (db w) h r Hr) as (h' & r' & E' & Hle & Hr' & Hp).
    { unfold id_is. by apply bool_decide_eq_true_2. }
    pose proof (handle_appointment_confirmation_known self (id r) true w h' r' E' Hr')
      as Hconf.
    cbv zeta in Hconf.
    exists r, h', r'. split; [done|]. split; [done|]. split; [done|]. split.
    + unfold api.appointment_confirm.
      unfold try_except at 1. unfold bind at 1. unfold query_filter_first. rewrite E.
      unfold bind at 1. unfold getattr. rewrite Hr.
      cbv zeta. rewrite bool_decide_eq_true_2 by done.
      unfold bind at 1. rewrite Hconf. reflexivity.
    + intros Hfirst. destruct (decide (h' = h)) as [|Hne]; [done|].
      assert (Hlt : (h' < h)%nat) by lia.
      unfold id_is in Hp. apply bool_decide_eq_true_1 in Hp.
      destruct (Hfirst h' r' Hlt Hr' Hp).
  - unfold api.appointment_confirm. py_unfold. by rewrite E.
Qed.

(** X9: for a stored id the status webhook always answers success and
    always reconciles the kind completed, whatever the gateway reported. It
    hands the reference of the reminder with that id, a missing reference
    as well, to the reconciler, which sets the first stored reminder
    carrying this reference to Sent: that one row is rewritten, it is the
    reminder named in the URL whenever no earlier reminder has the same
    reference, and every other stored reminder is as it was. The webhook
    never marks a reminder Failed. *)
Theorem status_webhook_always_completes reminder_id self w h r :
  first_index (id_is reminder_id) (db w) = Some h ->
  db w !! h = Some r ->
  exists h' r',
    first_index (call_sid_is (call_sid r)) (db w) = Some h' /\
    db w !! h' = Some r' /\
    routes.call_status_callback reminder_id self w =
      (Ok [("message", "Status updated successfully")],
       stored w (<[h' := with_status sent (utc w) r']> (db w))
         [Log INFO "Updated status for reminder {reminder.id} to {reminder.status}"
            [FInt (id r'); FStatus sent]]) /\
    ((forall j r0, (j < h)%nat -> db w !! j = Some r0 -> call_sid r0 <> call_sid r) ->
     h' = h).
Proof.
  intros E Hr.
  destruct (first_index_le (call_sid_is (call_sid r)) (db w) h r Hr)
    as (h' & r' & E' & Hle & Hr' & Hp).
  { unfold call_sid_is. by apply bool_decide_eq_true_2. }
  exists h', r'. split; [done|]. split; [done|]. split.
  - rewrite (call_status_callback_known_id reminder_id self w h r E Hr).
    rewrite (handle_call_status_callback_matched self (call_sid r) "completed" w h' r' E' Hr').
    unfold callback_status. by rewrite decide_True.
  - intros Hfirst. destruct (decide (h' = h)) as [|Hne]; [done|].
    assert (Hlt : (h' < h)%nat) by lia.
    unfold call_sid_is in Hp. apply bool_decide_eq_true_1 in Hp.
    destruct (Hfirst h' r' Hlt Hr' Hp).
Qed.


(** X11: the reminder list is read without touching the table and never
    answers an error. It holds at most ten dictionaries, those of stored
    reminders, latest appointment first; together with the reminders left
    out they are all stored reminders, none left out is later than one
    listed, and reminders are left out only when ten are listed. *)
Theorem get_reminders_lists_the_latest_ten w :
  exists rows rest,
    api.get_reminders w = (Ok [("reminders", models_dict.to_dict <$> rows)], w) /\
    (length rows <= 10)%nat /\
    StronglySorted by_date_desc rows /\
    rows ++ rest ≡ₚ db w /\
    (forall r r', r ∈ rows -> r' ∈ rest -> appointment_date r' <= appointment_date r) /\
    (rest <> [] -> length rows = 10%nat).
Proof.
  eexists. eexists. split; [reflexivity|].
  pose proof (sorted_selection (fun _ => True) by_date_desc 10 (db w))
    as (Hlen & Hsorted & _ & Hperm & Hle & Hfull).
  split; [done|]. split; [done|]. split; [|by split].
  rewrite Hperm. clear. induction (db w) as [|a l IH]; [done|].
  rewrite filter_cons_True by done. by f_equiv.
Qed.

(** X12: serving the script of a reminder never changes a stored reminder
    and places no call. For a stored id it answers with the reminder
    script built on the collaborator's text; when the collaborator raises,
    the caller gets 500 and the reason goes to the log (an HTTP error of
    the collaborator passes through as it is). *)
Theorem reminder_twiml_is_read_only reminder_id agent line w h r :
  first_index (id_is reminder_id) (db w) = Some h ->
  db w !! h = Some r ->
  api.get_appointment_reminder_twiml reminder_id agent line w =
    match get_appointment_reminder agent (patient_name r)
            (strftime (appointment_date r) "%A, %B %d at %I:%M %p") (message r) with
    | Ok text => (Ok (generate_appointment_reminder_twiml line text), w)
    | Raise (HTTPException code detail) => (Raise (HTTPException code detail), w)
    | Raise e =>
        (Raise (HTTPException 500 "Error generating TwiML"),
         stored w (db w) [Log ERROR "Error generating TwiML: {str(e)}" [FExn e]])
    end.
Proof.
  intros E Hr. unfold api.get_appointment_reminder_twiml. py_unfold. rewrite E.
  repeat (rewrite Hr; simpl).
  destruct (get_appointment_reminder agent _ _ _) as [text|e]; [done|].
  by destruct e.
Qed.

End api_endpoints.

(** ** Inbound calls *)

Import requests.

Lemma handle_incoming_call_greeting self data responder w :
  data !! "SpeechResult" = None ->
  inbound.handle_incoming_call self data responder w =
    (Ok [inbound.Gather "speech" "/voice-webhook" "POST" "auto" "en-US"
           ["Thank you for calling My Dentist. I'm the automated assistant. How can I help you today?"];
         inbound.Say "I didn't hear anything. Thank you for calling My Dentist. I'm the automated assistant. How can I help you today?";
         inbound.Gather "speech" "/voice-webhook" "POST" "auto" "en-US" [];
         inbound.Say "I didn't receive any input. Please call back when you're ready. Goodbye!";
         inbound.Hangup],
     stored w (db w)
       [Log INFO "Generated TwiML response for call {call_sid}" [FOptStr (data !! "CallSid")]]).
Proof.
  intros Hnone. unfold inbound.handle_incoming_call. py_unfold. rewrite Hnone.
  rewrite decide_False by (intros [x Hx]; discriminate Hx). reflexivity.
Qed.

Lemma handle_incoming_call_speech self data responder w speech :
  data !! "SpeechResult" = Some speech ->
  inbound.handle_incoming_call self data responder w =
    match inbound.process_voice_input responder speech {[ "call_sid" := data !! "CallSid" ]} with
    | Ok reply =>
        (Ok (reply_script reply),
         stored w (db w)
           [Log INFO "Generated TwiML response for call {call_sid}"
              [FOptStr (data !! "CallSid")]])
    | Raise e =>
        (Ok apology_script,
         stored w (db w) [Log ERROR "Error handling incoming call: {str(e)}" [FExn e]])
    end.
Proof.
  intros Hsome. unfold inbound.handle_incoming_call. py_unfold. rewrite Hsome.
  rewrite decide_True by (by eexists). simpl.
  by destruct (inbound.process_voice_input responder speech _).
Qed.

Lemma handle_incoming_call_returns self data responder w :
  exists script line,
    inbound.handle_incoming_call self data responder w = (Ok script, stored w (db w) [line]).
Proof.
  destruct (data !! "SpeechResult") as [speech|] eqn:Hs.
  - rewrite (handle_incoming_call_speech self data responder w speech Hs).
    destruct (inbound.process_voice_input responder speech _); by eexists; eexists.
  - rewrite (handle_incoming_call_greeting self data responder w Hs). by eexists; eexists.
Qed.

(** X13: an inbound call is always answered: whatever the request holds
    and whatever the agent does, the handler returns a script, never
    raises, leaves the reminders alone and logs one line. The script ends
    with Hangup, and each of its gathers listens for speech and posts to
    the voice webhook. *)
Theorem incoming_call_is_always_answered self data responder w :
  exists script line,
    inbound.handle_incoming_call self data responder w = (Ok script, stored w (db w) [line]) /\
    last script = Some inbound.Hangup /\
    forall input action method speech_timeout language nested,
      inbound.Gather input action method speech_timeout language nested ∈ script ->
      input = "speech" /\ action = "/voice-webhook" /\ method = "POST".
Proof.
  destruct (data !! "SpeechResult") as [speech|] eqn:Hs.
  - rewrite (handle_incoming_call_speech self data responder w speech Hs).
    destruct (inbound.process_voice_input responder speech _) as [reply|e];
      eexists; eexists; (split; [reflexivity|]); (split; [reflexivity|]);
      intros input action method speech_timeout language nested Hin;
      repeat (apply elem_of_cons in Hin as [Hin|Hin]; [by inversion Hin|]);
      by apply elem_of_nil in Hin.
  - rewrite (handle_incoming_call_greeting self data responder w Hs).
    eexists; eexists; (split; [reflexivity|]); (split; [reflexivity|]).
    intros input action method speech_timeout language nested Hin.
    repeat (apply elem_of_cons in Hin as [Hin|Hin]; [by inversion Hin|]).
    by apply elem_of_nil in Hin.
Qed.

(** X14: the agent is consulted only for speech. A request without
    SpeechResult gets the same greeting script whatever the agent is; a
    request with SpeechResult, empty or not, gets the agent's reply said
    first, and when the agent raises the caller hears the apology and
    nothing else. *)
Theorem incoming_call_consults_agent_for_speech_only self data responder other w speech e :
  (data !! "SpeechResult" = None ->
   inbound.handle_incoming_call self data responder w =
   inbound.handle_incoming_call self data other w) /\
  (data !! "SpeechResult" = Some speech ->
   inbound.process_voice_input responder speech {[ "call_sid" := data !! "CallSid" ]} = Raise e ->
   fst (inbound.handle_incoming_call self data responder w) = Ok apology_script) /\
  (data !! "SpeechResult" = Some speech ->
   forall reply,
     inbound.process_voice_input responder speech {[ "call_sid" := data !! "CallSid" ]} = Ok reply ->
     fst (inbound.handle_incoming_call self data responder w) = Ok (reply_script reply)).
Proof.
  split; [|split].
  - intros Hs. by rewrite !handle_incoming_call_greeting.
  - intros Hs He. by rewrite (handle_incoming_call_speech self data responder w speech Hs), He.
  - intros Hs reply Hr.
    by rewrite (handle_incoming_call_speech self data responder w speech Hs), Hr.
Qed.

(** X15: the voice webhook never answers an error: since the handler turns
    every failure into the apology script, the endpoint's own error branch
    is never taken, and no reminder changes. *)
Theorem voice_webhook_never_fails {tx : PyText} line responder data w :
  exists script w',
    app.voice_webhook line responder data w = (Ok script, w') /\ db w' = db w.
Proof.
  destruct (handle_incoming_call_returns line data responder w)
    as (script & line0 & Heq).
  exists script. eexists. unfold app.voice_webhook.
  unfold try_except at 1. unfold bind at 1. rewrite Heq. split; reflexivity.
Qed.

(** ** The voice agent *)

Lemma context_of_found (found : list string) :
  (if decide
        (match found with
         | [] => ""
         | _ :: _ =>
             String.append
               (String.append "Information from dental practice knowledge base:" agent.lf)
               (agent.numbered 1 found)
         end = "")
   then @nil (gmap string string)
   else [agent.chat_message "system"
           (String.append
              (String.append "Use the following information to answer the question if relevant:"
                 agent.lf)
              (match found with
               | [] => ""
               | _ :: _ =>
                   String.append
                     (String.append "Information from dental practice knowledge base:" agent.lf)
                     (agent.numbered 1 found)
               end))])
  = context_messages found.
Proof.
  destruct found as [|doc found]; [reflexivity|].
  rewrite decide_False by discriminate. reflexivity.
Qed.

Lemma get_response_request self user_input history system_prompt :
  agent.get_response self user_input history system_prompt =
    agent.chat_completions_create (agent.client self) (agent.model_name self)
      ([agent.chat_message "system" (default (agent.DEFAULT_SYSTEM_PROMPT self) system_prompt)]
       ++ context_messages (texts_found self user_input)
       ++ default [] history
       ++ [agent.chat_message "user" user_input])
      0.7%Q 200.
Proof.
  unfold agent.get_response, texts_found.
  rewrite <- context_of_found.
  destruct (agent.query (agent.knowledge_base self) user_input 3) as [|found rest];
    [reflexivity|].
  rewrite fmap_cons. rewrite !decide_False by discriminate.
  by rewrite <- !app_assoc.
Qed.

(** X16: one completion request is made per response. It starts with the
    system prompt, the default one when none is given; the knowledge-base
    context follows exactly when the query found something; then comes
    the conversation history in its order, and the caller's input is the
    last message. It is made with the agent's model at temperature 0.7 and
    at most 200 tokens, and what it answers or raises is what
    [get_response] answers or raises. *)
Theorem get_response_sends_prompt_context_history_input self user_input history system_prompt :
  agent.get_response self user_input history system_prompt =
    agent.chat_completions_create (agent.client self) (agent.model_name self)
      ([agent.chat_message "system" (default (agent.DEFAULT_SYSTEM_PROMPT self) system_prompt)]
       ++ context_messages (texts_found self user_input)
       ++ default [] history
       ++ [agent.chat_message "user" user_input])
      0.7%Q 200 /\
  (agent.query (agent.knowledge_base self) user_input 3 = [] <->
   context_messages (texts_found self user_input) = []) /\
  (length (context_messages (texts_found self user_input)) <= 1)%nat.
Proof.
  split; [apply get_response_request|].
  unfold texts_found.
  destruct (agent.query (agent.knowledge_base self) user_input 3) as [|found rest].
  - split; [done | simpl; lia].
  - rewrite fmap_cons. split; [split; discriminate | simpl; lia].
Qed.

(** X17: a caller's speech reaches the completion service without memory
    of the call: for a request with SpeechResult the handler has the agent
    send the default system prompt, the context found for the speech, and
    the speech as the one user message, whatever the call's sid and
    whatever was said before; the reply is said first in the script, and a
    failure of the completion service brings the apology. *)
Theorem inbound_speech_is_answered_without_history self line data speech w :
  data !! "SpeechResult" = Some speech ->
  fst (inbound.handle_incoming_call line data (agent.as_responder self) w) =
    match agent.chat_completions_create (agent.client self) (agent.model_name self)
            ([agent.chat_message "system" (agent.DEFAULT_SYSTEM_PROMPT self)]
             ++ context_messages (texts_found self speech)
             ++ [agent.chat_message "user" speech])
            0.7%Q 200 with
    | Ok reply => Ok (reply_script reply)
    | Raise _ => Ok apology_script
    end.
Proof.
  intros Hs. rewrite (handle_incoming_call_speech line data _ w speech Hs).
  unfold agent.as_responder. cbn [inbound.process_voice_input].
  unfold agent.process_voice_input. rewrite get_response_request.
  cbn [default app].
  by destruct (agent.chat_completions_create _ _ _ _ _).
Qed.

(** X18: an empty custom message counts as none. The reminder text is
    asked for with two messages, the reminder system prompt and one user
    message naming patient and date; a custom message that is not empty is
    appended to the user message after a line feed and the words
    Additional information. *)
Theorem reminder_prompt_ignores_empty_message self patient appointment text :
  text <> "" ->
  let prompt :=
    String.concat ""
      [agent.lf; "        You're calling to remind "; patient;
       " about their dental appointment on "; appointment; "."; agent.lf; "        "] in
  agent.get_appointment_reminder self patient appointment (Some "") =
    agent.get_appointment_reminder self patient appointment None /\
  agent.get_appointment_reminder self patient appointment None =
    agent.chat_completions_create (agent.client self) (agent.model_name self)
      [agent.chat_message "system" (agent.APPOINTMENT_REMINDER_PROMPT self);
       agent.chat_message "user" prompt] 0.7%Q 200 /\
  agent.get_appointment_reminder self patient appointment (Some text) =
    agent.chat_completions_create (agent.client self) (agent.model_name self)
      [agent.chat_message "system" (agent.APPOINTMENT_REMINDER_PROMPT self);
       agent.chat_message "user"
         (String.concat "" [prompt; agent.lf; "Additional information: "; text])] 0.7%Q 200.
Proof.
  intros Htext prompt. unfold agent.get_appointment_reminder. fold prompt.
  split; [|split].
  - by rewrite decide_True.
  - reflexivity.
  - by rewrite decide_False.
Qed.

(** ** The gateway adapter and the confirmation scripts *)

(** X19: placing a call never touches the reminders. Without a client it
    raises [ValueError] at once: nothing is logged and the gateway is not
    reached. With a client, the sid the gateway returns is returned after
    one line of log; an exception of the gateway is logged once and raised
    again as it is. The gateway is asked for the events initiated,
    ringing, answered and completed, with the service's own number as
    caller. *)
Theorem make_call_outcomes self to_number callback_url status_callback_url w :
  let events := ["initiated"; "ringing"; "answered"; "completed"] in
  match client self with
  | None =>
      make_call self to_number callback_url status_callback_url w =
        (Raise (ValueError "Twilio client not initialized. Check your credentials."), w)
  | Some c =>
      match calls_create c to_number (twilio_service.phone_number self) callback_url
              status_callback_url events with
      | Ok sid =>
          make_call self to_number callback_url status_callback_url w =
            (Ok sid, stored w (db w)
                       [Log INFO "Initiated call to {to_number}: {call.sid}"
                          [FStr to_number; FStr sid]])
      | Raise e =>
          make_call self to_number callback_url status_callback_url w =
            (Raise e, stored w (db w) [Log ERROR "Error making call: {str(e)}" [FExn e]])
      end
  end.
Proof.
  intros events. unfold make_call. destruct (client self) as [c|]; [|reflexivity].
  py_unfold. subst events.
  by destruct (calls_create c to_number _ callback_url status_callback_url _).
Qed.

(** X20: key 1 and key 2 end the dialog. The confirmation script for
    key 1 is the thanks and the end of the call, the one for key 2 the
    transfer to the office number and the end of the call; neither holds a
    gather, so whatever the callee does then no prompt is said and no key
    is read. The builder asks again, with one gather, exactly for the
    requests whose digits are neither 1 nor 2. *)
Theorem known_key_ends_the_dialog self request answers :
  (request !! "Digits" = Some "1" ->
   play (twilio_service.handle_appointment_confirmation self request) answers =
     [Spoke "Thank you for confirming your appointment. We look forward to seeing you. Goodbye!";
      HungUp]) /\
  (request !! "Digits" = Some "2" ->
   play (twilio_service.handle_appointment_confirmation self request) answers =
     [Spoke "I'll connect you with our office staff. Please hold.";
      Bridged "+11234567890";
      Spoke "The call could not be completed. Please try calling our main office number directly. Goodbye!";
      HungUp]) /\
  (scripts.gathers (twilio_service.handle_appointment_confirmation self request) = 0%nat <->
   request !! "Digits" = Some "1" \/ request !! "Digits" = Some "2") /\
  (scripts.gathers (twilio_service.handle_appointment_confirmation self request) = 1%nat <->
   unrecognized (default "" (request !! "Digits"))).
Proof.
  unfold twilio_service.handle_appointment_confirmation, unrecognized.
  split; [by intros ->|]. split; [by intros ->|].
  assert (H1 : default "" (request !! "Digits") = "1" <-> request !! "Digits" = Some "1").
  { destruct (request !! "Digits") as [x|]; cbn;
      split; [by intros -> | by intros [= ->] | discriminate | discriminate]. }
  assert (H2 : default "" (request !! "Digits") = "2" <-> request !! "Digits" = Some "2").
  { destruct (request !! "Digits") as [x|]; cbn;
      split; [by intros -> | by intros [= ->] | discriminate | discriminate]. }
  destruct (decide (default "" (request !! "Digits") = "1")) as [E1|N1].
  { cbn. split; split; [intros _; left; by apply H1 | done | discriminate | by intros [H _]]. }
  destruct (decide (default "" (request !! "Digits") = "2")) as [E2|N2].
  { cbn. split; split; [intros _; right; by apply H2 | done | discriminate | by intros [_ H]]. }
  cbn. split; split; [discriminate | | done | done].
  intros [H|H]; [apply H1 in H | apply H2 in H]; done.
Qed.

(** X21: the confirmation script depends on the request through its
    Digits entry alone, and a request without one is treated like an
    unknown key: the apology, the prompt once more, and after a timeout the
    closing message and the end of the call. Every confirmation script
    ends with Hangup. *)
Theorem confirmation_script_reads_digits_only self request other :
  (request !! "Digits" = other !! "Digits" ->
   twilio_service.handle_appointment_confirmation self request =
   twilio_service.handle_appointment_confirmation self other) /\
  (request !! "Digits" = None ->
   twilio_service.handle_appointment_confirmation self request =
     [Say "I'm sorry, I didn't understand your selection.";
      Gather 1 "/appointment-confirm" "POST" [confirm_prompt];
      Say "Thank you for your time. Goodbye!";
      Hangup]) /\
  last (twilio_service.handle_appointment_confirmation self request) = Some Hangup.
Proof.
  unfold twilio_service.handle_appointment_confirmation. split; [|split].
  - by intros ->.
  - intros ->. reflexivity.
  - destruct (decide (default "" (request !! "Digits") = "1")); [reflexivity|].
    destruct (decide (default "" (request !! "Digits") = "2")); reflexivity.
Qed.

(** ** The service on stored reminders *)

Import scripts.

Section service_calls.
Context {rt : PyRuntime}.


(** X24: the calls the application makes in the background never raise:
    scheduling, reconciling a status and recording an answer return
    normally in every world, for every argument and whatever the
    collaborators answer or raise. *)
Theorem background_calls_never_raise self reminder_id sid kind (yes : bool) w :
  fst (schedule_reminder_call self reminder_id w) = Ok tt /\
  fst (handle_call_status_callback self sid kind w) = Ok tt /\
  fst (appointment_service.handle_appointment_confirmation self reminder_id yes w) = Ok tt.
Proof.
  split; [|split].
  - destruct (first_index (id_is reminder_id) (db w)) as [h|] eqn:E.
    + destruct (first_index_Some _ _ _ E) as (r & Hr & _).
      destruct (datetime_sub_hours (appointment_date r) 24) as [t|e] eqn:Hsub.
      * rewrite (schedule_reminder_call_eq self reminder_id w h r t E Hr Hsub).
        destruct (t <? utc w); [by apply (make_reminder_call_returns self w h r) | done].
      * by rewrite (schedule_reminder_call_overflow self reminder_id w h r e E Hr Hsub).
    + by rewrite schedule_reminder_call_unknown.
  - apply handle_call_status_callback_reconciled.
  - destruct (first_index (id_is reminder_id) (db w)) as [h|] eqn:E.
    + destruct (first_index_Some _ _ _ E) as (r & Hr & _).
      by rewrite (handle_appointment_confirmation_known self reminder_id yes w h r E Hr).
    + by rewrite handle_appointment_confirmation_unknown.
Qed.

End service_calls.

(** X23: reconciling a status leaves alone every reminder that carries
    another reference: for each event kind, a stored reminder whose
    reference is not the one of the event is after the call exactly what it
    was, at the same position, and the table has as many rows as before. *)
Theorem reconcile_leaves_other_references self sid kind w j r :
  db w !! j = Some r ->
  call_sid r <> sid ->
  db (snd (handle_call_status_callback self sid kind w)) !! j = Some r /\
  length (db (snd (handle_call_status_callback self sid kind w))) = length (db w).
Proof.
  intros Hr Hne.
  destruct (handle_call_status_callback_reconciled self sid kind w) as [_ ->].
  unfold reconciled.
  destruct (first_index (call_sid_is sid) (db w)) as [h|] eqn:E; [|done].
  destruct (first_index_Some _ _ _ E) as (r0 & Hr0 & Hp). rewrite Hr0.
  rewrite length_insert. split; [|done].
  destruct (decide (h = j)) as [->|Hhj].
  - rewrite Hr in Hr0. injection Hr0 as <-.
    unfold call_sid_is in Hp. apply bool_decide_eq_true_1 in Hp. done.
  - by rewrite list_lookup_insert_ne.
Qed.

(** ** Dictionaries *)

Lemma status_name_inj s1 s2 : models_dict.status_name s1 = models_dict.status_name s2 -> s1 = s2.
Proof. by destruct s1, s2. Qed.

Lemma optional_inj o1 o2 : models_dict.optional o1 = models_dict.optional o2 -> o1 = o2.
Proof. destruct o1, o2; simpl; congruence. Qed.

(** X25: the dictionary of a reminder has its nine columns under their
    names and loses nothing: two reminders with the same dictionary are the
    same reminder, provided [isoformat] prints the instants they hold
    differently when they differ. *)
Theorem to_dict_loses_nothing {tx : PyText} r1 r2 :
  (forall a b, a ∈ instants r1 -> b ∈ instants r2 -> isoformat a = isoformat b -> a = b) ->
  models_dict.to_dict r1 = models_dict.to_dict r2 ->
  dom (models_dict.to_dict r1) =
    ({[ "id"; "patient_name"; "phone_number"; "appointment_date"; "message"; "status";
        "call_sid"; "created_at"; "updated_at" ]} : gset string) /\
  r1 = r2.
Proof.
  intros Hinj Heq. split.
  { unfold models_dict.to_dict. rewrite !dom_insert_L, dom_singleton_L. set_solver. }
  assert (Hkey : forall k, models_dict.to_dict r1 !! k = models_dict.to_dict r2 !! k)
    by (intros k; by rewrite Heq).
  destruct r1 as [i1 n1 p1 a1 m1 s1 c1 cr1 u1], r2 as [i2 n2 p2 a2 m2 s2 c2 cr2 u2].
  unfold models_dict.to_dict, instants in *. simpl in *.
  pose proof (Hkey "id") as Hid. pose proof (Hkey "patient_name") as Hname.
  pose proof (Hkey "phone_number") as Hphone. pose proof (Hkey "appointment_date") as Hdate.
  pose proof (Hkey "message") as Hmsg. pose proof (Hkey "status") as Hstatus.
  pose proof (Hkey "call_sid") as Hsid. pose proof (Hkey "created_at") as Hcr.
  pose proof (Hkey "updated_at") as Hup. clear Hkey Heq.
  repeat (rewrite lookup_insert_ne in Hid by done). rewrite !lookup_insert_eq in Hid.
  repeat (rewrite lookup_insert_ne in Hname by done). rewrite !lookup_insert_eq in Hname.
  repeat (rewrite lookup_insert_ne in Hphone by done). rewrite !lookup_insert_eq in Hphone.
  repeat (rewrite lookup_insert_ne in Hdate by done). rewrite !lookup_insert_eq in Hdate.
  repeat (rewrite lookup_insert_ne in Hmsg by done). rewrite !lookup_insert_eq in Hmsg.
  repeat (rewrite lookup_insert_ne in Hstatus by done). rewrite !lookup_insert_eq in Hstatus.
  repeat (rewrite lookup_insert_ne in Hsid by done). rewrite !lookup_insert_eq in Hsid.
  repeat (rewrite lookup_insert_ne in Hcr by done). rewrite !lookup_insert_eq in Hcr.
  repeat (rewrite lookup_insert_ne in Hup by done). rewrite !lookup_singleton_eq in Hup.
  injection Hid as ->. injection Hname as ->. injection Hphone as ->.
  injection Hdate as Hdate. injection Hmsg as Hmsg. injection Hstatus as Hstatus.
  injection Hsid as Hsid. injection Hcr as Hcr. injection Hup as Hup.
  apply optional_inj in Hmsg, Hsid. apply status_name_inj in Hstatus. subst.
  apply Hinj in Hdate; [|set_solver..]. apply Hinj in Hcr; [|set_solver..].
  apply Hinj in Hup; [|set_solver..]. by subst.
Qed.

(** ** The added properties on the example worlds *)

Lemma reachable_ids_count_from_one_witness :
  let es := [(examples.appointment - timedelta_hours 120, examples.create_ann);
             (examples.appointment - timedelta_hours 100,
              CreateReminder "+15550199" "2030-01-02T09:30:00" "Bob" (Some "Bring x-rays"))] in
  let bob := {| id := 2; patient_name := "Bob"; models.phone_number := "+15550199";
                appointment_date := 1893576600000000; message := Some "Bring x-rays";
                status := scheduled; call_sid := None;
                created_at := 1893132000000000; updated_at := 1893132000000000 |} in
  db (run (H := sample.iso_runtime) sample.clinic es empty_world) !! 1%nat = Some bob /\
  id bob = Z.of_nat 2.
Proof.
  intros es bob.
  assert (Hr : db (run (H := sample.iso_runtime) sample.clinic es empty_world) !! 1%nat
               = Some bob) by (vm_compute; reflexivity).
  split; [exact Hr|].
  exact (reachable_ids_count_from_one (rt := sample.iso_runtime) sample.clinic es 1%nat bob Hr).
Defined.

Lemma creation_data_never_changes_witness :
  let es := [(examples.appointment - timedelta_hours 24 + 60000000, ScheduleReminderCall 1);
             (examples.appointment - timedelta_hours 23, Confirmation 1 false);
             (examples.appointment - timedelta_hours 22, CallStatus examples.ann_sid "busy")] in
  (status <$> db examples.ann_created !! 0%nat) = Some scheduled /\
  exists r',
    db (run (H := sample.iso_runtime) sample.clinic es examples.ann_created) !! 0%nat = Some r' /\
    patient_name r' = "Ann" /\ models.phone_number r' = "+15550123" /\
    appointment_date r' = examples.appointment.
Proof.
  intros es. split; [vm_compute; reflexivity|].
  destruct (creation_data_never_changes (rt := sample.iso_runtime) sample.clinic es
              examples.ann_created 0%nat
              {| id := 1; patient_name := "Ann"; models.phone_number := "+15550123";
                 appointment_date := examples.appointment; message := None;
                 status := scheduled; call_sid := None;
                 created_at := 1893060000000000; updated_at := 1893060000000000 |})
    as (r' & Hr' & _ & Hname & Hphone & Hdate & _).
  - vm_compute. reflexivity.
  - exists r'. by repeat split.
Defined.

Lemma schedule_reminder_schedules_the_new_reminder_witness :
  fromisoformat (PyRuntime := sample.iso_runtime) "2030-01-01T10:00:00"
    = Ok examples.appointment /\
  (exists w',
     snd (app.serve
            (app.schedule_reminder (H := sample.iso_runtime) (H0 := sample_text.iso_text)
               sample.clinic "+15550123" "2030-01-01T10:00:00" "Ann" None)
            (examples.appointment - timedelta_hours 3)
            (examples.appointment - timedelta_hours 3 + 5) empty_world) = w' /\
     (status <$> db w' !! 0%nat) = Some sent /\
     (call_sid <$> db w' !! 0%nat) = Some examples.ann_sid) /\
  fromisoformat (PyRuntime := sample.iso_runtime) "0001-01-01T12:00:00"
    = Ok (datetime_min + timedelta_hours 12) /\
  datetime_min + timedelta_hours 12 - timedelta_hours 24 < datetime_min /\
  exists w',
    app.serve
      (app.schedule_reminder (H := sample.iso_runtime) (H0 := sample_text.iso_text)
         sample.clinic "+15550123" "0001-01-01T12:00:00" "Ann" None)
      examples.appointment (examples.appointment + 5) empty_world =
      (Ok {| app.status_code := 200;
             app.content := [("message", models_dict.VStr "Reminder scheduled successfully");
                             ("reminder_id", models_dict.VInt 1)] |}, w') /\
    (status <$> db w' !! 0%nat) = Some scheduled /\
    last (records w') =
      Some (Log ERROR "Error scheduling reminder call: {str(e)}"
              [FExn (OverflowError "date value out of range")]).
Proof.
  assert (Hparse : fromisoformat (PyRuntime := sample.iso_runtime) "2030-01-01T10:00:00"
                   = Ok examples.appointment) by (vm_compute; reflexivity).
  assert (Hearly : fromisoformat (PyRuntime := sample.iso_runtime) "0001-01-01T12:00:00"
                   = Ok (datetime_min + timedelta_hours 12)) by (vm_compute; reflexivity).
  assert (Hlow : datetime_min + timedelta_hours 12 - timedelta_hours 24 < datetime_min)
    by (vm_compute; reflexivity).
  split; [exact Hparse|]. split.
  { destruct (schedule_reminder_schedules_the_new_reminder (rt := sample.iso_runtime)
                (tx := sample_text.iso_text) sample.clinic "+15550123" "2030-01-01T10:00:00"
                "Ann" None (examples.appointment - timedelta_hours 3)
                (examples.appointment - timedelta_hours 3 + 5) examples.appointment empty_world
                Hparse) as (w' & Heq & Hdb & _).
    exists w'. rewrite Heq. split; [reflexivity|].
    rewrite Hdb. vm_compute. split; reflexivity. }
  split; [exact Hearly|]. split; [exact Hlow|].
  destruct (schedule_reminder_schedules_the_new_reminder (rt := sample.iso_runtime)
              (tx := sample_text.iso_text) sample.clinic "+15550123" "0001-01-01T12:00:00"
              "Ann" None examples.appointment (examples.appointment + 5)
              (datetime_min + timedelta_hours 12) empty_world Hearly)
    as (w' & Heq & _ & Hover & _).
  destruct (Hover Hlow) as [Hdb Hlog].
  exists w'. split; [exact Heq|]. split; [|exact Hlog].
  rewrite Hdb. reflexivity.
Defined.

Lemma schedule_reminder_rejects_unparseable_instant_witness :
  fromisoformat (PyRuntime := sample.iso_runtime) "next tuesday"
    = Raise (ValueError "Invalid isoformat string: 'next tuesday'") /\
  fst (app.serve
         (app.schedule_reminder (H := sample.iso_runtime) (H0 := sample_text.iso_text)
            sample.clinic "+15550123" "next tuesday" "Ann" None)
         examples.appointment (examples.appointment + 5) examples.ann_sent)
    = Raise (HTTPException 500 "Invalid isoformat string: 'next tuesday'").
Proof.
  assert (Hparse : fromisoformat (PyRuntime := sample.iso_runtime) "next tuesday"
                   = Raise (ValueError "Invalid isoformat string: 'next tuesday'"))
    by (vm_compute; reflexivity).
  split; [exact Hparse|].
  rewrite (schedule_reminder_rejects_unparseable_instant (rt := sample.iso_runtime)
             (tx := sample_text.iso_text) sample.clinic "+15550123" "next tuesday" "Ann" None
             examples.appointment (examples.appointment + 5)
             (ValueError "Invalid isoformat string: 'next tuesday'") examples.ann_sent Hparse).
  reflexivity.
Defined.

Lemma appointment_confirm_always_confirms_witness :
  let carol := {| id := 2; patient_name := "Carol"; models.phone_number := "+15550177";
                  appointment_date := examples.appointment; message := None;
                  status := sent; call_sid := Some "example_call_sid";
                  created_at := 1893060000000000; updated_at := 1893405660000000 |} in
  let w := {| db := db examples.ann_sent ++ [carol]; records := [];
              utc := examples.appointment |} in
  first_index (call_sid_is (Some "example_call_sid")) (db w) = Some 1%nat /\
  (forall j r0, (j < 1)%nat -> db w !! j = Some r0 -> id r0 <> id carol) /\
  db (snd (api.appointment_confirm sample.clinic w)) =
    db examples.ann_sent ++ [with_status confirmed examples.appointment carol].
Proof.
  intros carol w.
  assert (E : first_index (call_sid_is (Some "example_call_sid")) (db w) = Some 1%nat)
    by (vm_compute; reflexivity).
  assert (Hfirst : forall j r0, (j < 1)%nat -> db w !! j = Some r0 -> id r0 <> id carol).
  { intros j r0 Hj Hr0. assert (j = 0%nat) as -> by lia.
    vm_compute in Hr0. injection Hr0 as <-. discriminate. }
  split; [exact E|]. split; [exact Hfirst|].
  pose proof (appointment_confirm_always_confirms sample.clinic w) as Hconfirm.
  rewrite E in Hconfirm.
  destruct Hconfirm as (r & h' & r' & Hr & _ & Hr' & Heq & Hsame).
  assert (Hcarol : db w !! 1%nat = Some carol) by reflexivity.
  rewrite Hcarol in Hr. injection Hr as <-.
  rewrite (Hsame Hfirst) in Hr', Heq.
  rewrite Hcarol in Hr'. injection Hr' as <-.
  rewrite Heq. reflexivity.
Defined.

Lemma status_webhook_always_completes_witness :
  first_index (id_is 1) (db examples.ann_confirmed) = Some 0%nat /\
  (status <$> db examples.ann_confirmed !! 0%nat) = Some confirmed /\
  (status <$> db (snd (routes.call_status_callback 1 sample.clinic examples.ann_confirmed))
                !! 0%nat) = Some sent.
Proof.
  pose (ann := {| id := 1; patient_name := "Ann"; models.phone_number := "+15550123";
                  appointment_date := examples.appointment; message := None;
                  status := confirmed; call_sid := examples.ann_sid;
                  created_at := 1893060000000000; updated_at := 1893405690000000 |}).
  assert (E : first_index (id_is 1) (db examples.ann_confirmed) = Some 0%nat)
    by (vm_compute; reflexivity).
  assert (Hann : db examples.ann_confirmed !! 0%nat = Some ann) by (vm_compute; reflexivity).
  split; [exact E|]. split; [by rewrite Hann|].
  destruct (status_webhook_always_completes 1 sample.clinic examples.ann_confirmed 0%nat ann
              E Hann) as (h' & r' & _ & Hr' & Heq & Hsame).
  assert (Hh : h' = 0%nat) by (apply Hsame; intros j r0 Hj; lia).
  subst h'. rewrite Hann in Hr'. injection Hr' as <-.
  rewrite Heq. reflexivity.
Defined.


Lemma reminder_twiml_is_read_only_witness :
  first_index (id_is 1) (db examples.ann_created) = Some 0%nat /\
  (patient_name <$> db examples.ann_created !! 0%nat) = Some "Ann" /\
  api.get_appointment_reminder_twiml (H := sample.iso_runtime) 1 sample.silent
    (sample.line None) examples.ann_created =
    (Raise (HTTPException 500 "Error generating TwiML"),
     stored examples.ann_created (db examples.ann_created)
       [Log ERROR "Error generating TwiML: {str(e)}"
          [FExn (CollaboratorError "Connection error.")]]).
Proof.
  split; [vm_compute; reflexivity|]. split; [vm_compute; reflexivity|].
  rewrite (reminder_twiml_is_read_only (rt := sample.iso_runtime) 1 sample.silent
             (sample.line None) examples.ann_created 0%nat
             {| id := 1; patient_name := "Ann"; models.phone_number := "+15550123";
                appointment_date := examples.appointment; message := None;
                status := scheduled; call_sid := None;
                created_at := 1893060000000000; updated_at := 1893060000000000 |}).
  - reflexivity.
  - vm_compute. reflexivity.
  - vm_compute. reflexivity.
Defined.

Lemma incoming_call_consults_agent_for_speech_only_witness :
  let request : gmap string string := {[ "CallSid" := "CA7"; "SpeechResult" := "" ]} in
  request !! "SpeechResult" = Some "" /\
  inbound.process_voice_input (agent.as_responder sample_text.offline) ""
    {[ "call_sid" := request !! "CallSid" ]} = Raise (CollaboratorError "Connection error.") /\
  fst (inbound.handle_incoming_call (sample.line None) request
         (agent.as_responder sample_text.offline) empty_world) = Ok apology_script /\
  inbound.handle_incoming_call (sample.line None) ∅
    (agent.as_responder sample_text.offline) empty_world =
  inbound.handle_incoming_call (sample.line None) ∅
    (agent.as_responder sample_text.assistant) empty_world.
Proof.
  intros request.
  assert (Hs : request !! "SpeechResult" = Some "") by (vm_compute; reflexivity).
  assert (He : inbound.process_voice_input (agent.as_responder sample_text.offline) ""
                 {[ "call_sid" := request !! "CallSid" ]}
               = Raise (CollaboratorError "Connection error.")) by (vm_compute; reflexivity).
  split; [exact Hs|]. split; [exact He|].
  destruct (incoming_call_consults_agent_for_speech_only (sample.line None) request
              (agent.as_responder sample_text.offline)
              (agent.as_responder sample_text.assistant) empty_world ""
              (CollaboratorError "Connection error.")) as (_ & Hfail & _).
  destruct (incoming_call_consults_agent_for_speech_only (sample.line None) ∅
              (agent.as_responder sample_text.offline)
              (agent.as_responder sample_text.assistant) empty_world ""
              (CollaboratorError "Connection error.")) as (Hgreet & _ & _).
  split; [exact (Hfail Hs He)|]. apply Hgreet. apply lookup_empty.
Defined.

Lemma inbound_speech_is_answered_without_history_witness :
  let request : gmap string string :=
    {[ "CallSid" := "CA7"; "SpeechResult" := "When are you open?" ]} in
  request !! "SpeechResult" = Some "When are you open?" /\
  fst (inbound.handle_incoming_call (sample.line None) request
         (agent.as_responder sample_text.assistant) empty_world)
    = Ok (reply_script "messages: 3").
Proof.
  intros request.
  assert (Hs : request !! "SpeechResult" = Some "When are you open?")
    by (vm_compute; reflexivity).
  split; [exact Hs|].
  rewrite (inbound_speech_is_answered_without_history sample_text.assistant (sample.line None)
             request "When are you open?" empty_world Hs).
  reflexivity.
Defined.

Lemma reminder_prompt_ignores_empty_message_witness :
  "Bring x-rays" <> "" /\
  agent.get_appointment_reminder sample_text.assistant "Ann" "Tuesday" (Some "") =
  agent.get_appointment_reminder sample_text.assistant "Ann" "Tuesday" None.
Proof.
  assert (Hne : "Bring x-rays" <> "") by discriminate.
  split; [exact Hne|].
  destruct (reminder_prompt_ignores_empty_message sample_text.assistant "Ann" "Tuesday"
              "Bring x-rays" Hne) as (Hempty & _).
  exact Hempty.
Defined.

Lemma known_key_ends_the_dialog_witness :
  let request : gmap string string := {[ "CallSid" := "CA7"; "Digits" := "2" ]} in
  request !! "Digits" = Some "2" /\
  play (twilio_service.handle_appointment_confirmation (sample.line None) request)
    [Press "9"; Silence] =
    [Spoke "I'll connect you with our office staff. Please hold.";
     Bridged "+11234567890";
     Spoke "The call could not be completed. Please try calling our main office number directly. Goodbye!";
     HungUp].
Proof.
  intros request.
  assert (H2 : request !! "Digits" = Some "2") by (vm_compute; reflexivity).
  split; [exact H2|].
  destruct (known_key_ends_the_dialog (sample.line None) request [Press "9"; Silence])
    as (_ & Htwo & _).
  exact (Htwo H2).
Defined.

Lemma confirmation_script_reads_digits_only_witness :
  let request : gmap string string := {[ "CallSid" := "CA7" ]} in
  request !! "Digits" = None /\
  twilio_service.handle_appointment_confirmation (sample.line None) request =
    [Say "I'm sorry, I didn't understand your selection.";
     Gather 1 "/appointment-confirm" "POST" [confirm_prompt];
     Say "Thank you for your time. Goodbye!";
     Hangup].
Proof.
  intros request.
  assert (Hnone : request !! "Digits" = None) by (vm_compute; reflexivity).
  split; [exact Hnone|].
  destruct (confirmation_script_reads_digits_only (sample.line None) request ∅)
    as (_ & Hmissing & _).
  exact (Hmissing Hnone).
Defined.


Lemma reconcile_leaves_other_references_witness :
  let r := {| id := 1; patient_name := "Ann"; models.phone_number := "+15550123";
              appointment_date := examples.appointment; message := None;
              status := sent; call_sid := examples.ann_sid;
              created_at := 1893060000000000; updated_at := 1893405660000000 |} in
  db examples.ann_sent !! 0%nat = Some r /\
  call_sid r <> Some "CA-of-another-call" /\
  db (snd (handle_call_status_callback sample.clinic (Some "CA-of-another-call") "failed"
             examples.ann_sent)) !! 0%nat = Some r.
Proof.
  intros r.
  assert (Hr : db examples.ann_sent !! 0%nat = Some r) by (vm_compute; reflexivity).
  assert (Hne : call_sid r <> Some "CA-of-another-call") by discriminate.
  split; [exact Hr|]. split; [exact Hne|].
  destruct (reconcile_leaves_other_references sample.clinic (Some "CA-of-another-call")
              "failed" examples.ann_sent 0%nat r Hr Hne) as [Hsame _].
  exact Hsame.
Defined.

Lemma to_dict_loses_nothing_witness :
  let r := {| id := 1; patient_name := "Ann"; models.phone_number := "+15550123";
              appointment_date := examples.appointment; message := None;
              status := sent; call_sid := examples.ann_sid;
              created_at := 1893060000000000; updated_at := 1893405660000000 |} in
  (forall a b, a ∈ instants r -> b ∈ instants r ->
               isoformat (PyText := sample_text.iso_text) a
               = isoformat (PyText := sample_text.iso_text) b -> a = b) /\
  dom (models_dict.to_dict (H := sample_text.iso_text) r) =
    ({[ "id"; "patient_name"; "phone_number"; "appointment_date"; "message"; "status";
        "call_sid"; "created_at"; "updated_at" ]} : gset string).
Proof.
  intros r.
  assert (Hinj : forall a b, a ∈ instants r -> b ∈ instants r ->
                   isoformat (PyText := sample_text.iso_text) a
                   = isoformat (PyText := sample_text.iso_text) b -> a = b).
  { intros a b Ha Hb Heq. unfold instants, r in Ha, Hb. simpl in Ha, Hb.
    repeat (apply elem_of_cons in Ha as [->|Ha]);
      try (by apply elem_of_nil in Ha);
      repeat (apply elem_of_cons in Hb as [->|Hb]);
      try (by apply elem_of_nil in Hb);
      first [reflexivity | vm_compute in Heq; discriminate Heq]. }
  split; [exact Hinj|].
  destruct (to_dict_loses_nothing (tx := sample_text.iso_text) r r Hinj eq_refl) as [Hdom _].
  exact Hdom.
Defined.
